(** * Battery cell monitoring dashboard: the simulator and its session state

    A shallow embedding of [battery_dashboard.py].

    - Numbers.  The script computes with Python floats.  They are modelled
      here as exact rationals ([Q]): [round(x, n)] is round-half-to-even on
      the exact value, and the binary rounding error of float arithmetic is
      not represented.
    - Randomness.  [random.random()] is an oracle [random : nat -> Q]; the
      world carries the number of values already drawn.
      [random.uniform(a, b)] is the library's [a + (b - a) * random()].
    - Objects.  Every Python dict that the script creates is an object in a
      heap, and dict values are references, so that [dict.copy()] is the
      shallow copy it is in Python.  A dict is an association list in
      insertion order, which is the order [keys()] iterates in.  The list
      [historical_data] and its records are only ever reached through the
      session state and are kept there as values.
    - Errors.  A failing subscript raises [KeyError].
    - Runs.  Streamlit runs the script from top to bottom on every
      interaction.  A run reads its widgets and the clock ([Inputs]); at
      most one button is clicked in a run.  [st.rerun()] ends the run where
      it is called, so a run under auto refresh with monitoring on stops in
      the sidebar.  [time.sleep] and everything that only draws (tables,
      charts, messages) are left out, apart from which of the two branches
      of the main content area is shown, the six summary metrics, the rows
      of the trends tab and the two limit lines of the voltage chart. *)

From Stdlib Require Import ZArith QArith Qround Qabs Qminmax Lqa Lia.
From Stdlib Require Import DecimalString DecimalNat.
From stdpp Require Import base list strings.

Local Open Scope string_scope.
Local Open Scope list_scope.

(** ** Data model *)

Abbreviation loc := nat (only parsing).

(** The three values of [status]: "Good", "Warning" and "Critical". *)
Inductive Status := Good | Warning | Critical.

Definition status_eqb (a b : Status) : bool :=
  match a, b with
  | Good, Good | Warning, Warning | Critical, Critical => true
  | _, _ => false
  end.

(** One entry of [CELL_CONFIGS]. *)
Module Config.
Record t := mk {
  nominal_voltage : Q;
  min_voltage : Q;
  max_voltage : Q;
  color : string
}.
End Config.

(** The dict returned by [generate_cell_data]. *)
Module Cell.
Record t := mk {
  cell_id : string;
  cell_type : string;
  voltage : Q;
  current : Q;
  temperature : Q;
  power : Q;
  capacity : Q;
  health : Q;
  status : Status;
  timestamp : Z;
  min_voltage : Q;
  max_voltage : Q
}.
End Cell.

(** A dict with string keys, in insertion order. *)
Definition dict (V : Type) := list (string * V).

Fixpoint dict_get {V} (k : string) (d : dict V) : option V :=
  match d with
  | [] => None
  | (k', v) :: d' => if String.eqb k k' then Some v else dict_get k d'
  end.

(** [d[k] = v]: an existing key keeps its position, a new one goes last. *)
Fixpoint dict_set {V} (k : string) (v : V) (d : dict V) : dict V :=
  match d with
  | [] => [(k, v)]
  | (k', v') :: d' =>
      if String.eqb k k' then (k, v) :: d' else (k', v') :: dict_set k v d'
  end.

Definition keys {V} (d : dict V) : list string := map fst d.
Definition values {V} (d : dict V) : list V := map snd d.

Inductive Obj :=
| ReadingObj (r : Cell.t)
| DictObj (d : dict loc).

(** An element of [historical_data]: [{"timestamp": ..., "data": ...}]. *)
Module Snapshot.
Record t := mk { timestamp : Z; data : loc }.
End Snapshot.

(** [st.session_state]. *)
Record SessionState := mkSession {
  cells_data : loc;
  historical_data : list Snapshot.t;
  is_monitoring : bool
}.

Record World := mkWorld {
  heap : list Obj;
  session_state : SessionState;
  rng : nat
}.

(** ** Computations: state and exceptions *)

Inductive Error :=
| KeyError (key : string)
| BadReference (l : loc).

Inductive Result (A : Type) :=
| Ok (a : A)
| Raise (e : Error).
Arguments Ok {A} a.
Arguments Raise {A} e.

Definition M (A : Type) : Type := World -> Result (A * World).

Definition ret {A} (a : A) : M A := fun w => Ok (a, w).

Definition bind {A B} (c : M A) (k : A -> M B) : M B :=
  fun w => match c w with
           | Ok (a, w') => k a w'
           | Raise e => Raise e
           end.

Definition raise {A} (e : Error) : M A := fun _ => Raise e.

Declare Scope m_scope.
Delimit Scope m_scope with m.
Notation "'let*' x ':=' c 'in' k" := (bind c (fun x => k))
  (at level 10, x name, c at level 100, k at level 200, only parsing) : m_scope.
Local Open Scope m_scope.

Definition get_session : M SessionState := fun w => Ok (session_state w, w).

Definition put_session (s : SessionState) : M unit :=
  fun w => Ok (tt, mkWorld (heap w) s (rng w)).

(** A dict display or [dict.copy()] makes a new object. *)
Definition alloc (o : Obj) : M loc :=
  fun w => Ok (length (heap w), mkWorld (heap w ++ [o])%list (session_state w) (rng w)).

Definition load (l : loc) : M Obj :=
  fun w => match heap w !! l with
           | Some o => Ok (o, w)
           | None => Raise (BadReference l)
           end.

Definition load_dict (l : loc) : M (dict loc) :=
  let* o := load l in
  match o with DictObj d => ret d | ReadingObj _ => raise (BadReference l) end.

Definition load_reading (l : loc) : M Cell.t :=
  let* o := load l in
  match o with ReadingObj r => ret r | DictObj _ => raise (BadReference l) end.

Definition store (l : loc) (o : Obj) : M unit :=
  fun w => Ok (tt, mkWorld (<[l := o]> (heap w)) (session_state w) (rng w)).

(** [d[k]] *)
Definition subscript {V} (d : dict V) (k : string) : M V :=
  match dict_get k d with
  | Some v => ret v
  | None => raise (KeyError k)
  end.

Fixpoint for_each {A} (l : list A) (body : A -> M unit) : M unit :=
  match l with
  | [] => ret tt
  | x :: l' => let* _ := body x in for_each l' body
  end.

(** ** Numbers *)

Local Open Scope Q_scope.

Definition Qltb (x y : Q) : bool :=
  match Qcompare x y with Lt => true | _ => false end.

Definition round_half_even (x : Q) : Z :=
  let f := Qfloor x in
  match Qcompare (x - inject_Z f) 0.5 with
  | Lt => f
  | Gt => (f + 1)%Z
  | Eq => if Z.even f then f else (f + 1)%Z
  end.

(** [round(x, ndigits)] *)
Definition round (x : Q) (ndigits : nat) : Q :=
  let p := inject_Z (10 ^ Z.of_nat ndigits) in
  inject_Z (round_half_even (x * p)) / p.

(** ** The simulator *)

Definition CELL_CONFIGS : dict Config.t :=
  [ ("LFP", Config.mk 3.2 2.8 3.6 "#2ecc71");
    ("NMC", Config.mk 3.6 3.2 4.0 "#e74c3c");
    ("LTO", Config.mk 2.4 1.5 2.8 "#f39c12");
    ("LiCoO2", Config.mk 3.7 3.0 4.2 "#9b59b6") ].

(** The right-hand sides of [voltage_health], [temp_health] and
    [overall_health] in [generate_cell_data]. *)
Definition voltage_health (config : Config.t) (voltage : Q) : Q :=
  100 * (1 - Qabs (voltage - Config.nominal_voltage config)
               / Config.nominal_voltage config).

Definition temp_health (temperature : Q) : Q :=
  100 * Qmax 0 (1 - Qmax 0 (temperature - 35) / 20).

Definition overall_health (config : Config.t) (voltage temperature : Q) : Q :=
  round ((voltage_health config voltage + temp_health temperature) / 2) 1.

(** The [if]/[elif]/[else] that sets [status] in [generate_cell_data]. *)
Definition status_determination
    (config : Config.t) (voltage temperature overall_health : Q) : Status :=
  if Qltb voltage (Config.min_voltage config)
     || Qltb (Config.max_voltage config) voltage
     || Qltb 45 temperature
  then Critical
  else if Qltb 40 temperature || Qltb overall_health 80
  then Warning
  else Good.

Section Simulator.

(** [random n] is the value of the [n]-th call of [random.random()]. *)
Variable random : nat -> Q.

Definition random_random : M Q :=
  fun w => Ok (random (rng w), mkWorld (heap w) (session_state w) (S (rng w))).

Definition uniform (a b : Q) : M Q :=
  let* u := random_random in ret (a + (b - a) * u).

Definition generate_cell_data
    (cell_type cell_id : string) (current_time : Z) : M loc :=
  let* config := subscript CELL_CONFIGS cell_type in
  let base_voltage := Config.nominal_voltage config in
  let* voltage_variation := uniform (-0.1) 0.1 in
  let voltage := round (base_voltage + voltage_variation) 3 in
  let* current := uniform (-5.0) 5.0 in
  let current := round current 2 in
  let base_temp := 25 in
  let* u := uniform (-2) 8 in
  let temp_variation := Qabs current * 0.5 + u in
  let temperature := round (base_temp + temp_variation) 1 in
  let power := round (voltage * Qabs current) 2 in
  let* capacity := uniform 2.8 3.2 in
  let capacity := round capacity 2 in
  let overall_health := overall_health config voltage temperature in
  let status := status_determination config voltage temperature overall_health in
  alloc (ReadingObj
    (Cell.mk cell_id cell_type voltage current temperature power capacity
             overall_health status current_time
             (Config.min_voltage config) (Config.max_voltage config))).

End Simulator.

Definition get_status_color (status : Status) : string :=
  match status with
  | Good => "status-good"
  | Warning => "status-warning"
  | Critical => "status-critical"
  end.

Local Close Scope Q_scope.

(** ** The script: sidebar and main content area *)

(** [str(n)] for a non-negative [int]. *)
Definition str (n : nat) : string := NilZero.string_of_uint (Nat.to_uint n).

Definition enumerate {A} (l : list A) : list (nat * A) :=
  combine (seq 0 (length l)) l.

(** [l[-n:]] for a positive [n]: the last [n] elements, or all of a
    shorter list. *)
Definition last_records {A} (n : nat) (l : list A) : list A :=
  drop (length l - n) l.

(** [np.mean]: [None] stands for the [nan] it returns on an empty list. *)
Definition np_mean (l : list Q) : option Q :=
  match l with
  | [] => None
  | _ => Some (fold_left Qplus l 0 / inject_Z (Z.of_nat (length l)))%Q
  end.

Inductive Button := InitializeCells | StartMonitoring | StopMonitoring.

(** What one run of the script reads from its widgets and from the clock. *)
Record Inputs := mkInputs {
  cell_types : list string;       (* one selectbox per cell of the slider *)
  clicked : option Button;
  auto_refresh : bool;
  now : Z                         (* datetime.now() *)
}.

(** The six metrics of the system overview. *)
Record Metrics := mkMetrics {
  total_cells : nat;
  good_cells : nat;
  warning_cells : nat;
  critical_cells : nat;
  avg_health : option Q;
  total_power : Q
}.

(** What the main content area shows at the end of a run. *)
Inductive View :=
| Rerun                         (* st.rerun() ended the run in the sidebar *)
| Placeholder                   (* the st.info of the else branch *)
| Overview (m : Metrics).

(** [st.session_state.cells_data[cell_id] = l] *)
Definition set_cell (cell_id : string) (l : loc) : M unit :=
  let* s := get_session in
  let* d := load_dict (cells_data s) in
  store (cells_data s) (DictObj (dict_set cell_id l d)).

Definition set_monitoring (b : bool) : M unit :=
  let* s := get_session in
  put_session (mkSession (cells_data s) (historical_data s) b).

Definition count_status (st : Status) (cells : list Cell.t) : nat :=
  length (filter (fun cell => status_eqb (Cell.status cell) st = true) cells).

Fixpoint load_readings (ls : list loc) : M (list Cell.t) :=
  match ls with
  | [] => ret []
  | l :: ls' =>
      let* r := load_reading l in
      let* rs := load_readings ls' in
      ret (r :: rs)
  end.

Section Script.

Variable random : nat -> Q.

(** The body of [if st.button("Initialize Cells")]. *)
Definition initialize_cells (cell_types : list string) (current_time : Z) : M unit :=
  let* fresh := alloc (DictObj []) in
  let* s := get_session in
  let* _ := put_session (mkSession fresh (historical_data s) (is_monitoring s)) in
  for_each (enumerate cell_types) (fun '(i, cell_type) =>
    let cell_id := "Cell_" +:+ str (i + 1) +:+ "_" +:+ cell_type in
    let* l := generate_cell_data random cell_type cell_id current_time in
    set_cell cell_id l).

(** The sidebar; the result tells whether [st.rerun()] was reached. *)
Definition sidebar (inp : Inputs) : M bool :=
  let* _ := match clicked inp with
            | Some InitializeCells => initialize_cells (cell_types inp) (now inp)
            | _ => ret tt
            end in
  let* _ := match clicked inp with
            | Some StartMonitoring => set_monitoring true
            | _ => ret tt
            end in
  let* _ := match clicked inp with
            | Some StopMonitoring => set_monitoring false
            | _ => ret tt
            end in
  let* s := get_session in
  ret (auto_refresh inp && is_monitoring s).

(** The body of the [for cell_id in ...keys()] loop. *)
Definition regenerate (current_time : Z) (cell_id : string) : M unit :=
  let* s := get_session in
  let* d := load_dict (cells_data s) in
  let* l := subscript d cell_id in
  let* r := load_reading l in
  let cell_type := Cell.cell_type r in
  let* l' := generate_cell_data random cell_type cell_id current_time in
  set_cell cell_id l'.

(** The body of [if st.session_state.is_monitoring]. *)
Definition monitoring_update (current_time : Z) : M unit :=
  let* s := get_session in
  let* d := load_dict (cells_data s) in
  let* _ := for_each (keys d) (regenerate current_time) in
  let* s := get_session in
  let* d := load_dict (cells_data s) in
  let* copy := alloc (DictObj d) in
  let h := (historical_data s ++ [Snapshot.mk current_time copy])%list in
  let* _ := put_session (mkSession (cells_data s) h (is_monitoring s)) in
  if Nat.ltb 100 (length h)
  then put_session (mkSession (cells_data s) (last_records 100 h) (is_monitoring s))
  else ret tt.

(** The summary metrics. *)
Definition system_overview : M Metrics :=
  let* s := get_session in
  let* d := load_dict (cells_data s) in
  let* cells := load_readings (values d) in
  ret (mkMetrics (length d)
                 (count_status Good cells)
                 (count_status Warning cells)
                 (count_status Critical cells)
                 (np_mean (map Cell.health cells))
                 (fold_left Qplus (map Cell.power cells) 0%Q)).

(** The main content area: [if st.session_state.cells_data: ... else: ...]. *)
Definition main_content (current_time : Z) : M View :=
  let* s := get_session in
  let* d := load_dict (cells_data s) in
  match d with
  | [] => ret Placeholder
  | _ :: _ =>
      let* _ := if is_monitoring s then monitoring_update current_time else ret tt in
      let* m := system_overview in
      ret (Overview m)
  end.

(** One run of the script, top to bottom. *)
Definition script_run (inp : Inputs) : M View :=
  let* rerun := sidebar inp in
  if rerun then ret Rerun else main_content (now inp).

Fixpoint script_runs (inps : list Inputs) : M (list View) :=
  match inps with
  | [] => ret []
  | inp :: inps' =>
      let* v := script_run inp in
      let* vs := script_runs inps' in
      ret (v :: vs)
  end.

End Script.

(** The session state of a new session: lines 51-56 of the script. *)
Definition initial_world : World :=
  mkWorld [DictObj []] (mkSession 0 [] false) 0.

(** The reading that [generate_cell_data] builds from a profile and the four
    values of [random.random()] it consumes, in the order it draws them. *)
Definition reading_of_draws
    (config : Config.t) (cell_type cell_id : string) (current_time : Z)
    (u1 u2 u3 u4 : Q) : Cell.t :=
  let voltage := round (Config.nominal_voltage config + (-0.1 + (0.1 - -0.1) * u1)) 3 in
  let current := round (-5.0 + (5.0 - -5.0) * u2) 2 in
  let temperature := round (25 + (Qabs current * 0.5 + (-2 + (8 - -2) * u3))) 1 in
  let health := overall_health config voltage temperature in
  Cell.mk cell_id cell_type voltage current temperature
          (round (voltage * Qabs current) 2)
          (round (2.8 + (3.2 - 2.8) * u4) 2)
          health
          (status_determination config voltage temperature health)
          current_time
          (Config.min_voltage config) (Config.max_voltage config).

Definition known_chemistries : list string := ["LFP"; "NMC"; "LTO"; "LiCoO2"].

(** ** What a reference denotes *)

Definition reading_at (h : list Obj) (l : loc) : option Cell.t :=
  match h !! l with Some (ReadingObj r) => Some r | _ => None end.

Definition dict_at (h : list Obj) (l : loc) : option (dict loc) :=
  match h !! l with Some (DictObj d) => Some d | _ => None end.

Fixpoint resolve (h : list Obj) (d : dict loc) : option (dict Cell.t) :=
  match d with
  | [] => Some []
  | (k, l) :: d' =>
      match reading_at h l, resolve h d' with
      | Some r, Some rs => Some ((k, r) :: rs)
      | _, _ => None
      end
  end.

(** The readings, by cell id, of the dict object at [l]. *)
Definition readings_at (h : list Obj) (l : loc) : option (dict Cell.t) :=
  match dict_at h l with Some d => resolve h d | None => None end.

Definition known_reading (kr : string * Cell.t) : bool :=
  match dict_get (Cell.cell_type kr.2) CELL_CONFIGS with
  | Some _ => true
  | None => false
  end.

Definition dict_ok (h : list Obj) (l : loc) : bool :=
  match readings_at h l with
  | Some rs => forallb known_reading rs
  | None => false
  end.

(** The invariant of the session: [cells_data] and the [data] of every
    record of [historical_data] are dicts of readings of known chemistries,
    and no record shares its dict with [cells_data]. *)
Definition wf (w : World) : bool :=
  let s := session_state w in
  dict_ok (heap w) (cells_data s)
  && forallb (fun snap => negb (Nat.eqb (Snapshot.data snap) (cells_data s))
                          && dict_ok (heap w) (Snapshot.data snap))
             (historical_data s).

(** The widgets only offer the keys of [CELL_CONFIGS], for 1 to 16 cells. *)
Definition valid_inputs (inp : Inputs) : bool :=
  forallb (fun ct => match dict_get ct CELL_CONFIGS with
                     | Some _ => true
                     | None => false
                     end) (cell_types inp)
  && Nat.leb 1 (length (cell_types inp)) && Nat.leb (length (cell_types inp)) 16.

Definition has_cells (w : World) : bool :=
  match dict_at (heap w) (cells_data (session_state w)) with
  | Some (_ :: _) => true
  | _ => false
  end.

(** [historical_data] after each of a series of runs of the main content
    area, one per time of the clock. *)
Fixpoint monitor (random : nat -> Q) (times : list Z) : M (list (list Snapshot.t)) :=
  match times with
  | [] => ret []
  | t :: times' =>
      let* _ := main_content random t in
      let* s := get_session in
      let* hs := monitor random times' in
      ret (historical_data s :: hs)
  end.

(** Every object of [h] other than the one at [cd] is the same in [h']. *)
Definition unchanged_except (cd : loc) (h h' : list Obj) : Prop :=
  forall l o, l <> cd -> h !! l = Some o -> h' !! l = Some o.

(** From [w] to [w'], every dict of readings other than the live
    [cells_data] keeps its readings and stays apart from [cells_data]. *)
Definition frozen (w w' : World) : Prop :=
  forall l rs,
    l <> cells_data (session_state w) ->
    readings_at (heap w) l = Some rs ->
    l <> cells_data (session_state w') /\ readings_at (heap w') l = Some rs.

(** [historical_data.append(snap)] and the cut to the last 100 records. *)
Definition appended (h : list Snapshot.t) (snap : Snapshot.t) : list Snapshot.t :=
  if Nat.ltb 100 (length (h ++ [snap]))
  then last_records 100 (h ++ [snap])
  else h ++ [snap].

(** ** A sample session *)

Definition sample_random (n : nat) : Q := if Nat.even n then 0.25%Q else 0.75%Q.

Definition sample_inputs (click : option Button) (auto : bool) (t : Z) : Inputs :=
  mkInputs ["LFP"; "NMC"] click auto t.

Definition world_after (inps : list Inputs) (w : World) : World :=
  match script_runs sample_random inps w with
  | Ok (_, w') => w'
  | Raise _ => w
  end.

(** Two cells initialized and nothing else. *)
Definition idle_world : World :=
  world_after [sample_inputs (Some InitializeCells) true 10] initial_world.

(** Two cells initialized and monitoring started under auto refresh: the
    run ends in the sidebar, so nothing is recorded yet. *)
Definition armed_world : World :=
  world_after [sample_inputs (Some StartMonitoring) true 20] idle_world.

(** Monitoring without auto refresh: two ticks, two records. *)
Definition recorded_world : World :=
  world_after [sample_inputs (Some StartMonitoring) false 20;
               sample_inputs None false 30] idle_world.

(** The reading of a first call of the simulator. *)
Definition sample_reading (cell_type : string) : option Cell.t :=
  match generate_cell_data sample_random cell_type "Cell_1" 0 initial_world with
  | Ok (l, w') => reading_at (heap w') l
  | Raise _ => None
  end.

(** ** Readings of the simulator, cell ids *)

(** [r] is a reading that [generate_cell_data] returns for its own cell id,
    chemistry and time, from four consecutive values of the generator. *)
Definition generated (random : nat -> Q) (r : Cell.t) : Prop :=
  exists config n,
    dict_get (Cell.cell_type r) CELL_CONFIGS = Some config /\
    r = reading_of_draws config (Cell.cell_type r) (Cell.cell_id r) (Cell.timestamp r)
          (random n) (random (1 + n)) (random (2 + n)) (random (3 + n)).

(** [f"Cell_{i+1}_{cell_type}"] *)
Definition cell_key (i : nat) (cell_type : string) : string :=
  "Cell_" +:+ str (i + 1) +:+ "_" +:+ cell_type.

Definition is_digit (c : Ascii.ascii) : bool :=
  Nat.leb 48 (Ascii.nat_of_ascii c) && Nat.leb (Ascii.nat_of_ascii c) 57.

Fixpoint all_digits (s : string) : bool :=
  match s with
  | EmptyString => true
  | String c s' => is_digit c && all_digits s'
  end.

(** The readings of [cells_data] all come from the simulator. *)
Definition cells_generated (random : nat -> Q) (w : World) : Prop :=
  exists rs,
    readings_at (heap w) (cells_data (session_state w)) = Some rs /\
    Forall (fun kr => generated random kr.2) rs.

(** The metrics that the overview shows for the readings [rs]. *)
Definition metrics_of (rs : dict Cell.t) : Metrics :=
  mkMetrics (length rs)
            (count_status Good (values rs))
            (count_status Warning (values rs))
            (count_status Critical (values rs))
            (np_mean (map Cell.health (values rs)))
            (fold_left Qplus (map Cell.power (values rs)) 0%Q).



(** ** The historical trends tab *)

(** A row of [hist_df]. *)
Module TrendRow.
Record t := mk {
  timestamp : Z;
  cell_id : string;
  voltage : Q;
  current : Q;
  temperature : Q;
  health : Q
}.
End TrendRow.

(** The inner loop, [for cell_id, cell_data in record["data"].items()]. *)
Fixpoint record_rows (timestamp : Z) (items : dict loc) : M (list TrendRow.t) :=
  match items with
  | [] => ret []
  | (cell_id, l) :: items' =>
      let* cell_data := load_reading l in
      let* rows := record_rows timestamp items' in
      ret (TrendRow.mk timestamp cell_id (Cell.voltage cell_data)
             (Cell.current cell_data) (Cell.temperature cell_data)
             (Cell.health cell_data) :: rows)
  end.

(** The outer loop, [for record in ...]. *)
Fixpoint trend_rows (records : list Snapshot.t) : M (list TrendRow.t) :=
  match records with
  | [] => ret []
  | record :: records' =>
      let* items := load_dict (Snapshot.data record) in
      let* rows := record_rows (Snapshot.timestamp record) items in
      let* rest := trend_rows records' in
      ret (rows ++ rest)
  end.

(** The rows of [hist_df], or [None] for the message shown until there are
    two records. *)
Definition historical_trends : M (option (list TrendRow.t)) :=
  let* s := get_session in
  if Nat.ltb 1 (length (historical_data s))
  then let* rows := trend_rows (last_records 50 (historical_data s)) in
       ret (Some rows)
  else ret None.

(** The row of a reading in a record timed [timestamp]. *)
Definition row_of (timestamp : Z) (kr : string * Cell.t) : TrendRow.t :=
  TrendRow.mk timestamp kr.1 (Cell.voltage kr.2) (Cell.current kr.2)
              (Cell.temperature kr.2) (Cell.health kr.2).

(** The rows of the records [records], by the readings they denote. *)
Definition rows_of (h : list Obj) (records : list Snapshot.t) : list TrendRow.t :=
  flat_map (fun record =>
              match readings_at h (Snapshot.data record) with
              | Some rs => map (row_of (Snapshot.timestamp record)) rs
              | None => []
              end) records.

Definition known_chemistry (cell_type : string) : bool :=
  match dict_get cell_type CELL_CONFIGS with
  | Some _ => true
  | None => false
  end.

(** A run in which neither Initialize Cells nor Start Monitoring is clicked. *)
Definition quiet (inp : Inputs) : bool :=
  match clicked inp with
  | None | Some StopMonitoring => true
  | Some InitializeCells | Some StartMonitoring => false
  end.

(** ** The voltage chart *)

(** The heights of the two dashed lines of the voltage chart,
    [df["min_voltage"].iloc[0]] and [df["max_voltage"].iloc[0]], where [df]
    has one row per value of [cells_data]; a frame without rows has no such
    column. *)
Definition voltage_limit_lines : M (Q * Q) :=
  let* s := get_session in
  let* d := load_dict (cells_data s) in
  let* df := load_readings (values d) in
  match df with
  | row :: _ => ret (Cell.min_voltage row, Cell.max_voltage row)
  | [] => raise (KeyError "min_voltage")
  end.

(** ** Rounding *)

Local Open Scope Q_scope.

Lemma Qltb_lt x y : Qltb x y = true <-> x < y.
Proof.
  unfold Qltb. rewrite Qlt_alt.
  destruct (Qcompare x y); split; congruence.
Qed.

Lemma Qltb_ge x y : Qltb x y = false <-> y <= x.
Proof.
  rewrite <- Bool.not_true_iff_false, Qltb_lt. split.
  - apply Qnot_lt_le.
  - apply Qle_not_lt.
Qed.

Lemma round_half_even_floor x :
  (Qfloor x <= round_half_even x <= Qfloor x + 1)%Z.
Proof.
  unfold round_half_even.
  destruct (Qcompare _ _); [destruct (Z.even _) | |]; lia.
Qed.

Lemma round_half_even_ge k x :
  inject_Z k <= x -> (k <= round_half_even x)%Z.
Proof.
  intros H. apply Qfloor_resp_le in H. rewrite Qfloor_Z in H.
  pose proof (round_half_even_floor x). lia.
Qed.

Lemma round_half_even_le k x :
  x <= inject_Z k -> (round_half_even x <= k)%Z.
Proof.
  intros H.
  pose proof (Qfloor_le x) as Hf.
  assert (Hfk : (Qfloor x <= k)%Z).
  { rewrite Zle_Qle. eapply Qle_trans; eassumption. }
  destruct (Z.eq_dec (Qfloor x) k) as [E | N].
  - unfold round_half_even.
    assert (Hc : Qcompare (x - inject_Z (Qfloor x)) 0.5 = Lt).
    { rewrite <- Qlt_alt. rewrite E. lra. }
    rewrite Hc. lia.
  - pose proof (round_half_even_floor x). lia.
Qed.

Lemma pow10_pos n : 0 < inject_Z (10 ^ Z.of_nat n).
Proof.
  replace 0 with (inject_Z 0) by reflexivity.
  rewrite <- Zlt_Qlt. apply Z.pow_pos_nonneg; lia.
Qed.

(** Rounding to [n] decimals never crosses a number with [n] decimals. *)
Lemma round_ge x n k :
  inject_Z k / inject_Z (10 ^ Z.of_nat n) <= x ->
  inject_Z k / inject_Z (10 ^ Z.of_nat n) <= round x n.
Proof.
  intros H. unfold round.
  pose proof (pow10_pos n) as Hp.
  set (p := inject_Z (10 ^ Z.of_nat n)) in *.
  apply Qle_shift_div_l; [exact Hp |].
  assert (E : inject_Z k / p * p == inject_Z k) by (field; lra).
  rewrite E. rewrite <- Zle_Qle. apply round_half_even_ge.
  rewrite <- E. apply Qmult_le_compat_r; [exact H | lra].
Qed.

Lemma round_le x n k :
  x <= inject_Z k / inject_Z (10 ^ Z.of_nat n) ->
  round x n <= inject_Z k / inject_Z (10 ^ Z.of_nat n).
Proof.
  intros H. unfold round.
  pose proof (pow10_pos n) as Hp.
  set (p := inject_Z (10 ^ Z.of_nat n)) in *.
  apply Qle_shift_div_r; [exact Hp |].
  assert (E : inject_Z k / p * p == inject_Z k) by (field; lra).
  rewrite E. rewrite <- Zle_Qle. apply round_half_even_le.
  rewrite <- E. apply Qmult_le_compat_r; [exact H | lra].
Qed.

Lemma round_between x n a b :
  inject_Z a / inject_Z (10 ^ Z.of_nat n) <= x <= inject_Z b / inject_Z (10 ^ Z.of_nat n) ->
  inject_Z a / inject_Z (10 ^ Z.of_nat n) <= round x n
    <= inject_Z b / inject_Z (10 ^ Z.of_nat n).
Proof. intros [Ha Hb]. split; [apply round_ge | apply round_le]; assumption. Qed.

Local Close Scope Q_scope.

(** ** The simulator: what a call returns *)

Lemma known_chemistries_keys : keys CELL_CONFIGS = known_chemistries.
Proof. reflexivity. Qed.

Lemma dict_get_Some_elem {V} k (d : dict V) v :
  dict_get k d = Some v -> k ∈ keys d.
Proof.
  induction d as [| [k' v'] d IH]; simpl; [discriminate |].
  destruct (String.eqb_spec k k') as [-> | N]; intros H.
  - apply list_elem_of_here.
  - apply list_elem_of_further, IH, H.
Qed.

Lemma dict_get_None_elem {V} k (d : dict V) :
  dict_get k d = None -> k ∉ keys d.
Proof.
  induction d as [| [k' v'] d IH]; simpl; intros H.
  - apply not_elem_of_nil.
  - destruct (String.eqb_spec k k') as [-> | N]; [discriminate |].
    apply not_elem_of_cons. split; [exact N | apply IH, H].
Qed.

Lemma dict_get_elem {V} k (d : dict V) :
  k ∈ keys d <-> is_Some (dict_get k d).
Proof.
  split.
  - intros H. destruct (dict_get k d) eqn:E; [eauto |].
    apply dict_get_None_elem in E. contradiction.
  - intros [v H]. eapply dict_get_Some_elem, H.
Qed.

(** The profile of a known chemistry is one of the four of [CELL_CONFIGS]. *)
Lemma config_cases ct config :
  dict_get ct CELL_CONFIGS = Some config ->
  (ct = "LFP" /\ config = Config.mk 3.2 2.8 3.6 "#2ecc71") \/
  (ct = "NMC" /\ config = Config.mk 3.6 3.2 4.0 "#e74c3c") \/
  (ct = "LTO" /\ config = Config.mk 2.4 1.5 2.8 "#f39c12") \/
  (ct = "LiCoO2" /\ config = Config.mk 3.7 3.0 4.2 "#9b59b6").
Proof.
  unfold CELL_CONFIGS. cbn [dict_get].
  destruct (String.eqb_spec ct "LFP") as [-> | _]; [intros [= <-]; tauto |].
  destruct (String.eqb_spec ct "NMC") as [-> | _]; [intros [= <-]; tauto |].
  destruct (String.eqb_spec ct "LTO") as [-> | _]; [intros [= <-]; tauto |].
  destruct (String.eqb_spec ct "LiCoO2") as [-> | _]; [intros [= <-]; tauto |].
  discriminate.
Qed.

Section SimulatorFacts.

Variable random : nat -> Q.

Lemma generate_cell_data_known ct id t w config :
  dict_get ct CELL_CONFIGS = Some config ->
  generate_cell_data random ct id t w =
    Ok (length (heap w),
        mkWorld (heap w ++ [ReadingObj
                   (reading_of_draws config ct id t
                      (random (rng w)) (random (1 + rng w))
                      (random (2 + rng w)) (random (3 + rng w)))])%list
                (session_state w) (4 + rng w)).
Proof.
  intros H. unfold generate_cell_data, subscript, bind. rewrite H. reflexivity.
Qed.

Lemma generate_cell_data_unknown ct id t w :
  dict_get ct CELL_CONFIGS = None ->
  generate_cell_data random ct id t w = Raise (KeyError ct).
Proof.
  intros H. unfold generate_cell_data, subscript, bind. rewrite H. reflexivity.
Qed.

(** A returned reference denotes the reading built from the four draws. *)
Lemma generate_cell_data_inv ct id t w l w' R :
  generate_cell_data random ct id t w = Ok (l, w') ->
  heap w' !! l = Some (ReadingObj R) ->
  exists config,
    dict_get ct CELL_CONFIGS = Some config /\
    R = reading_of_draws config ct id t
          (random (rng w)) (random (1 + rng w))
          (random (2 + rng w)) (random (3 + rng w)).
Proof.
  intros Hg Hl.
  destruct (dict_get ct CELL_CONFIGS) as [config |] eqn:E.
  - rewrite (generate_cell_data_known _ _ _ _ _ E) in Hg.
    injection Hg as <- <-. simpl in Hl.
    rewrite lookup_app_r in Hl by lia.
    rewrite Nat.sub_diag in Hl. simpl in Hl.
    injection Hl as <-. eauto.
  - rewrite (generate_cell_data_unknown _ _ _ _ E) in Hg. discriminate.
Qed.

End SimulatorFacts.

(** ** The simulator: ranges of the generated values *)

Local Open Scope Q_scope.

Ltac qconst := vm_compute; first [reflexivity | discriminate].

Lemma round_within x n a b lo hi :
  lo == inject_Z a / inject_Z (10 ^ Z.of_nat n) ->
  hi == inject_Z b / inject_Z (10 ^ Z.of_nat n) ->
  lo <= x <= hi -> lo <= round x n <= hi.
Proof.
  intros Ea Eb H. rewrite Ea, Eb in *. apply round_between, H.
Qed.

Lemma draw_voltage config u :
  In config (values CELL_CONFIGS) -> 0 <= u < 1 ->
  Config.nominal_voltage config - 0.1
    <= round (Config.nominal_voltage config + (-0.1 + (0.1 - -0.1) * u)) 3
    <= Config.nominal_voltage config + 0.1.
Proof.
  intros Hc Hu. simpl in Hc.
  destruct Hc as [<- | [<- | [<- | [<- | []]]]]; cbn [Config.nominal_voltage].
  - apply (round_within _ 3 3100 3300); [qconst | qconst | lra].
  - apply (round_within _ 3 3500 3700); [qconst | qconst | lra].
  - apply (round_within _ 3 2300 2500); [qconst | qconst | lra].
  - apply (round_within _ 3 3600 3800); [qconst | qconst | lra].
Qed.

Lemma draw_current u :
  0 <= u < 1 -> Qabs (round (-5.0 + (5.0 - -5.0) * u) 2) <= 5.
Proof.
  intros Hu. apply Qabs_Qle_condition.
  apply (round_within _ 2 (-500) 500); [qconst | qconst | lra].
Qed.

Lemma draw_temperature u2 u3 :
  0 <= u2 < 1 -> 0 <= u3 < 1 ->
  23 <= round (25 + (Qabs (round (-5.0 + (5.0 - -5.0) * u2) 2) * 0.5
                      + (-2 + (8 - -2) * u3))) 1 <= 35.5.
Proof.
  intros H2 H3.
  pose proof (draw_current u2 H2) as Hc.
  pose proof (Qabs_nonneg (round (-5.0 + (5.0 - -5.0) * u2) 2)) as Hn.
  set (c := Qabs _) in *.
  apply (round_within _ 1 230 355); [qconst | qconst | lra].
Qed.

Lemma temp_health_le temperature : temp_health temperature <= 100.
Proof.
  unfold temp_health.
  pose proof (Q.le_max_l 0 (temperature - 35)) as H0.
  set (m := Qmax 0 (temperature - 35)) in *.
  assert (E : m / 20 == m * 0.05) by field.
  assert (H1 : Qmax 0 (1 - m / 20) <= 1).
  { apply Q.max_lub; [lra | rewrite E; lra]. }
  lra.
Qed.

Lemma temp_health_cool temperature :
  temperature <= 35.5 -> 97.5 <= temp_health temperature.
Proof.
  intros H. unfold temp_health.
  assert (H0 : Qmax 0 (temperature - 35) <= 0.5) by (apply Q.max_lub; lra).
  set (m := Qmax 0 (temperature - 35)) in *.
  assert (E : m / 20 == m * 0.05) by field.
  pose proof (Q.le_max_r 0 (1 - m / 20)) as H1.
  rewrite E in H1 at 1. lra.
Qed.

Lemma voltage_health_le config voltage :
  0 < Config.nominal_voltage config -> voltage_health config voltage <= 100.
Proof.
  intros Hn. unfold voltage_health.
  assert (H : 0 <= Qabs (voltage - Config.nominal_voltage config)
                   / Config.nominal_voltage config).
  { apply Qle_shift_div_l; [exact Hn |]. rewrite Qmult_0_l. apply Qabs_nonneg. }
  set (q := _ / _) in *. lra.
Qed.

Lemma voltage_health_near config voltage :
  0 < Config.nominal_voltage config ->
  Config.nominal_voltage config - 0.1 <= voltage <= Config.nominal_voltage config + 0.1 ->
  100 * (1 - 0.1 / Config.nominal_voltage config) <= voltage_health config voltage.
Proof.
  intros Hn Hv. unfold voltage_health.
  assert (Ha : Qabs (voltage - Config.nominal_voltage config) <= 0.1)
    by (apply Qabs_Qle_condition; lra).
  assert (H : Qabs (voltage - Config.nominal_voltage config)
                / Config.nominal_voltage config
              <= 0.1 / Config.nominal_voltage config).
  { apply Qmult_le_compat_r; [exact Ha |]. apply Qlt_le_weak, Qinv_lt_0_compat, Hn. }
  set (q := Qabs _ / _) in *. set (r := 0.1 / _) in *. lra.
Qed.


Lemma config_nominal config :
  In config (values CELL_CONFIGS) ->
  2.4 <= Config.nominal_voltage config /\
  100 * (1 - 0.1 / 2.4) <= 100 * (1 - 0.1 / Config.nominal_voltage config) /\
  Config.min_voltage config <= Config.nominal_voltage config - 0.1 /\
  Config.nominal_voltage config + 0.1 <= Config.max_voltage config.
Proof.
  intros Hc. simpl in Hc.
  destruct Hc as [<- | [<- | [<- | [<- | []]]]]; cbn;
    repeat split; qconst.
Qed.

Lemma dict_get_values {V} k (d : dict V) v :
  dict_get k d = Some v -> In v (values d).
Proof.
  induction d as [| [k' v'] d IH]; simpl; [discriminate |].
  destruct (String.eqb k k'); [intros [= ->]; auto | auto].
Qed.

(** The health of a reading near its nominal voltage and below 35.5 degrees. *)
Lemma overall_health_range config voltage temperature :
  In config (values CELL_CONFIGS) ->
  Config.nominal_voltage config - 0.1 <= voltage <= Config.nominal_voltage config + 0.1 ->
  temperature <= 35.5 ->
  96 <= overall_health config voltage temperature <= 100.
Proof.
  intros Hc Hv Ht.
  destruct (config_nominal config Hc) as (Hn & Hlow & _ & _).
  assert (Hpos : 0 < Config.nominal_voltage config) by lra.
  pose proof (voltage_health_near config voltage Hpos Hv) as H1.
  pose proof (voltage_health_le config voltage Hpos) as H2.
  pose proof (temp_health_cool temperature Ht) as H3.
  pose proof (temp_health_le temperature) as H4.
  assert (Hk : 95.8 <= 100 * (1 - 0.1 / 2.4)) by qconst.
  unfold overall_health.
  set (vh := voltage_health config voltage) in *.
  set (th := temp_health temperature) in *.
  set (r := 100 * (1 - 0.1 / Config.nominal_voltage config)) in *.
  set (k := 100 * (1 - 0.1 / 2.4)) in *.
  assert (E : (vh + th) / 2 == (vh + th) * 0.5) by field.
  apply (round_within _ 1 960 1000); [qconst | qconst | rewrite E; lra].
Qed.

Local Close Scope Q_scope.

(** ** The simulator: the properties of a generated reading *)

Lemma status_determination_rule config voltage temperature health :
  let critical := (voltage < Config.min_voltage config \/
                   Config.max_voltage config < voltage \/ 45 < temperature)%Q in
  let warning := (40 < temperature \/ health < 80)%Q in
  (status_determination config voltage temperature health = Critical <-> critical) /\
  (~ critical ->
   (status_determination config voltage temperature health = Warning <-> warning)) /\
  (~ critical -> ~ warning ->
   status_determination config voltage temperature health = Good).
Proof.
  cbv zeta. unfold status_determination.
  rewrite <- !Qltb_lt.
  destruct (Qltb voltage _), (Qltb _ voltage), (Qltb 45 _),
           (Qltb 40 _), (Qltb health _); cbn;
    intuition congruence.
Qed.

(** The three outcomes, each by what holds of the inputs. *)
Lemma status_determination_cases config voltage temperature health :
  let critical := (voltage < Config.min_voltage config \/
                   Config.max_voltage config < voltage \/ 45 < temperature)%Q in
  let warning := (40 < temperature \/ health < 80)%Q in
  (status_determination config voltage temperature health = Critical <-> critical) /\
  (status_determination config voltage temperature health = Warning
   <-> ~ critical /\ warning) /\
  (status_determination config voltage temperature health = Good
   <-> ~ critical /\ ~ warning).
Proof.
  cbv zeta. unfold status_determination.
  rewrite <- !Qltb_lt.
  destruct (Qltb voltage _), (Qltb _ voltage), (Qltb 45 _),
           (Qltb 40 _), (Qltb health _); cbn;
    intuition congruence.
Qed.

Section GeneratedReadings.

Variable random : nat -> Q.
Hypothesis random_range : forall n, (0 <= random n < 1)%Q.

(** C1: the status of a generated reading is Critical exactly when its
    voltage is below the minimum or above the maximum of its chemistry or
    its temperature is above 45; failing that it is Warning exactly when
    its temperature is above 40 or its health below 80; failing both it is
    Good.  The status is that of [status_determination], which follows the
    same rule for any voltage, temperature and health and tests Critical
    first: at 3.65 V an LFP reading is Critical whatever its temperature
    and health. *)
Theorem status_rule ct id t w l w' R config :
  generate_cell_data random ct id t w = Ok (l, w') ->
  heap w' !! l = Some (ReadingObj R) ->
  dict_get ct CELL_CONFIGS = Some config ->
  let critical := (Cell.voltage R < Config.min_voltage config \/
                   Config.max_voltage config < Cell.voltage R \/
                   45 < Cell.temperature R)%Q in
  let warning := (40 < Cell.temperature R \/ Cell.health R < 80)%Q in
  (Cell.status R = Critical <-> critical) /\
  (~ critical -> (Cell.status R = Warning <-> warning)) /\
  (~ critical -> ~ warning -> Cell.status R = Good) /\
  Cell.status R =
    status_determination config (Cell.voltage R) (Cell.temperature R) (Cell.health R) /\
  (forall voltage temperature health,
      let status := status_determination config voltage temperature health in
      let critical := (voltage < Config.min_voltage config \/
                       Config.max_voltage config < voltage \/ 45 < temperature)%Q in
      let warning := (40 < temperature \/ health < 80)%Q in
      (status = Critical <-> critical) /\
      (status = Warning <-> ~ critical /\ warning) /\
      (status = Good <-> ~ critical /\ ~ warning)) /\
  (forall lfp temperature health,
      dict_get "LFP" CELL_CONFIGS = Some lfp ->
      Config.max_voltage lfp = 3.6%Q /\
      status_determination lfp 3.65 temperature health = Critical).
Proof.
  intros Hg Hl Hc.
  destruct (generate_cell_data_inv _ _ _ _ _ _ _ _ Hg Hl) as (config' & Hc' & ->).
  assert (config' = config) as -> by congruence.
  cbn [Cell.status Cell.voltage Cell.temperature Cell.health reading_of_draws].
  cbv zeta.
  pose proof (status_determination_rule config
    (round (Config.nominal_voltage config + (-0.1 + (0.1 - -0.1) * random (rng w))) 3)
    (round (25 + (Qabs (round (-5.0 + (5.0 - -5.0) * random (1 + rng w)) 2) * 0.5
                  + (-2 + (8 - -2) * random (2 + rng w)))) 1)) as Hrule.
  cbv zeta in Hrule.
  split; [apply Hrule |]. split; [apply Hrule |]. split; [apply Hrule |].
  split; [reflexivity |].
  split; [intros voltage temperature health; apply status_determination_cases |].
  intros lfp temperature health [= <-]. split; [reflexivity |].
  apply status_determination_rule. right. left. qconst.
Qed.



(** C8: every generated reading is Good.  Its temperature is at most 35.5,
    its voltage is within the minimum and maximum of its chemistry, and
    its health is at least 80. *)
Theorem generated_status_good ct id t w l w' R config :
  generate_cell_data random ct id t w = Ok (l, w') ->
  heap w' !! l = Some (ReadingObj R) ->
  dict_get ct CELL_CONFIGS = Some config ->
  Cell.status R = Good /\
  (Cell.temperature R <= 35.5)%Q /\
  (Config.min_voltage config <= Cell.voltage R <= Config.max_voltage config)%Q /\
  (80 <= Cell.health R)%Q.
Proof.
  intros Hg Hl Hc.
  destruct (generate_cell_data_inv _ _ _ _ _ _ _ _ Hg Hl) as (config' & Hc' & ->).
  assert (config' = config) as -> by congruence.
  apply dict_get_values in Hc.
  pose proof (draw_voltage config _ Hc (random_range (rng w))) as Hv.
  destruct (config_nominal config Hc) as (_ & _ & Hmin & Hmax).
  pose proof (draw_temperature _ _ (random_range (1 + rng w))
                (random_range (2 + rng w))) as Ht.
  cbn [Cell.status Cell.voltage Cell.temperature Cell.health reading_of_draws] in *.
  cbv zeta in *.
  set (voltage := round _ 3) in *.
  set (temperature := round _ 1) in *.
  pose proof (overall_health_range config voltage temperature Hc Hv (proj2 Ht)) as Hh.
  assert (Hrange : (Config.min_voltage config <= voltage <= Config.max_voltage config)%Q)
    by lra.
  split; [| split; [apply Ht | split; [exact Hrange | lra]]].
  apply status_determination_rule; cbv zeta; lra.
Qed.


End GeneratedReadings.

(** C5: [generate_cell_data] raises [KeyError] exactly for a chemistry that
    is not one of LFP, NMC, LTO and LiCoO2, and returns a reading of that
    chemistry for each of the four. *)
Theorem unknown_chemistry_rejected random ct id t w :
  (ct ∉ known_chemistries <->
   generate_cell_data random ct id t w = Raise (KeyError ct)) /\
  (ct ∈ known_chemistries <->
   exists l w' R,
     generate_cell_data random ct id t w = Ok (l, w') /\
     heap w' !! l = Some (ReadingObj R) /\ Cell.cell_type R = ct) /\
  ((exists e, generate_cell_data random ct id t w = Raise e) <->
   ct ∉ known_chemistries).
Proof.
  rewrite <- known_chemistries_keys.
  destruct (dict_get ct CELL_CONFIGS) as [config |] eqn:E.
  - pose proof (dict_get_Some_elem _ _ _ E) as Hin.
    rewrite (generate_cell_data_known random ct id t w config E).
    split; [| split].
    + split; [intros Hn; contradiction | discriminate].
    + split; [| intros _; exact Hin].
      intros _. eexists _, _, _. split; [reflexivity |]. cbn [heap].
      rewrite lookup_app_r by lia. rewrite Nat.sub_diag. split; reflexivity.
    + split; [intros [e He]; discriminate | intros Hn; contradiction].
  - pose proof (dict_get_None_elem _ _ E) as Hin.
    rewrite (generate_cell_data_unknown random ct id t w E).
    split; [| split].
    + split; [reflexivity | intros _; exact Hin].
    + split; [intros Hn; contradiction |].
      intros (l & w' & R & H & _). discriminate.
    + split; [intros _; exact Hin | intros _; eauto].
Qed.

(** ** The heap: what a step leaves alone *)

Lemma unchanged_except_refl cd h : unchanged_except cd h h.
Proof. intros l o _ H. exact H. Qed.

Lemma unchanged_except_trans cd h1 h2 h3 :
  unchanged_except cd h1 h2 -> unchanged_except cd h2 h3 ->
  unchanged_except cd h1 h3.
Proof. intros H12 H23 l o Hl H. apply H23, H12; assumption. Qed.

Lemma unchanged_except_app cd h h2 : unchanged_except cd h (h ++ h2).
Proof. intros l o _ H. apply lookup_app_l_Some, H. Qed.

Lemma unchanged_except_insert cd h o : unchanged_except cd h (<[cd := o]> h).
Proof. intros l o' Hl H. rewrite list_lookup_insert_ne by congruence. exact H. Qed.

(** A location past the end of [h] holds nothing, so it excepts nothing. *)
Lemma unchanged_except_fresh cd h h' l o :
  unchanged_except cd h h' -> length h <= cd ->
  h !! l = Some o -> h' !! l = Some o.
Proof.
  intros H Hcd Hl. apply H; [| exact Hl].
  apply lookup_lt_Some in Hl. lia.
Qed.

Lemma dict_at_Some h l d : dict_at h l = Some d <-> h !! l = Some (DictObj d).
Proof.
  unfold dict_at. destruct (h !! l) as [[r | d'] |]; split; congruence.
Qed.

Lemma reading_at_Some h l r : reading_at h l = Some r <-> h !! l = Some (ReadingObj r).
Proof.
  unfold reading_at. destruct (h !! l) as [[r' | d'] |]; split; congruence.
Qed.

Section Frame.

Variables (cd : loc) (h h' : list Obj).
Hypothesis Hframe : unchanged_except cd h h'.
Hypothesis Hcd : reading_at h cd = None.

Lemma reading_at_frame l r : reading_at h l = Some r -> reading_at h' l = Some r.
Proof.
  intros H. assert (l <> cd) by congruence.
  rewrite reading_at_Some in *. apply Hframe; assumption.
Qed.

Lemma resolve_frame d rs : resolve h d = Some rs -> resolve h' d = Some rs.
Proof.
  revert rs. induction d as [| [k l] d IH]; intros rs; cbn [resolve]; [auto |].
  destruct (reading_at h l) as [r |] eqn:Hr; [| discriminate].
  destruct (resolve h d) as [rs' |] eqn:Hrs; [| discriminate].
  intros [= <-]. rewrite (reading_at_frame _ _ Hr), (IH _ eq_refl). reflexivity.
Qed.

Lemma readings_at_frame l rs :
  l <> cd -> readings_at h l = Some rs -> readings_at h' l = Some rs.
Proof.
  intros Hl. unfold readings_at.
  destruct (dict_at h l) as [d |] eqn:Hd; [| discriminate].
  apply dict_at_Some in Hd. apply Hframe in Hd; [| exact Hl].
  apply dict_at_Some in Hd. rewrite Hd. apply resolve_frame.
Qed.

Lemma dict_ok_frame l : l <> cd -> dict_ok h l = true -> dict_ok h' l = true.
Proof.
  intros Hl. unfold dict_ok.
  destruct (readings_at h l) as [rs |] eqn:Hrs; [| discriminate].
  rewrite (readings_at_frame _ _ Hl Hrs). auto.
Qed.

End Frame.

Lemma dict_at_not_reading h l d : dict_at h l = Some d -> reading_at h l = None.
Proof. unfold dict_at, reading_at. destruct (h !! l) as [[r | d'] |]; congruence. Qed.

Lemma fresh_not_reading (h : list Obj) l : length h <= l -> reading_at h l = None.
Proof. intros H. unfold reading_at. rewrite lookup_ge_None_2 by lia. reflexivity. Qed.

(** ** Dicts *)

Lemma keys_dict_set {V} k (v : V) d : k ∈ keys d -> keys (dict_set k v d) = keys d.
Proof.
  induction d as [| [k' v'] d IH]; cbn; intros H.
  - apply elem_of_nil in H. contradiction.
  - destruct (String.eqb_spec k k') as [-> | N]; [reflexivity |].
    cbn. f_equal. apply IH. apply elem_of_cons in H. tauto.
Qed.

Lemma dict_set_nonempty {V} k (v : V) d : dict_set k v d <> [].
Proof. destruct d as [| [k' v'] d]; cbn; [| destruct (String.eqb k k')]; discriminate. Qed.

Lemma resolve_dict_set h k l r d rs :
  resolve h d = Some rs -> reading_at h l = Some r ->
  resolve h (dict_set k l d) = Some (dict_set k r rs).
Proof.
  intros Hd Hr. revert rs Hd.
  induction d as [| [k' l'] d IH]; intros rs; cbn [resolve dict_set].
  - intros [= <-]. cbn. rewrite Hr. reflexivity.
  - destruct (reading_at h l') as [r' |] eqn:Hr'; [| discriminate].
    destruct (resolve h d) as [rs' |] eqn:Hrs; [| discriminate].
    intros [= <-]. cbn [dict_set].
    destruct (String.eqb k k'); cbn [resolve].
    + rewrite Hr, Hrs. reflexivity.
    + rewrite Hr', (IH _ eq_refl). reflexivity.
Qed.

Lemma forallb_dict_set {V} (f : string * V -> bool) k v d :
  (forall k', f (k', v) = f (k, v)) ->
  f (k, v) = true -> forallb f d = true -> forallb f (dict_set k v d) = true.
Proof.
  intros Hk Hv. induction d as [| [k' v'] d IH]; cbn.
  - rewrite Hv. reflexivity.
  - intros H. apply andb_prop in H as [H1 H2].
    destruct (String.eqb k k'); cbn.
    + rewrite Hv, H2. reflexivity.
    + rewrite H1, (IH H2). reflexivity.
Qed.

Lemma resolve_get h d rs k l :
  resolve h d = Some rs -> dict_get k d = Some l ->
  exists r, reading_at h l = Some r /\ dict_get k rs = Some r.
Proof.
  revert rs. induction d as [| [k' l'] d IH]; intros rs; cbn [resolve dict_get];
    [discriminate |].
  destruct (reading_at h l') as [r' |] eqn:Hr'; [| discriminate].
  destruct (resolve h d) as [rs' |] eqn:Hrs; [| discriminate].
  intros [= <-]. cbn [dict_get].
  destruct (String.eqb k k').
  - intros [= <-]. eauto.
  - apply IH. reflexivity.
Qed.

Lemma resolve_values h d rs :
  resolve h d = Some rs -> keys rs = keys d /\ length rs = length d.
Proof.
  revert rs. induction d as [| [k l] d IH]; intros rs; cbn [resolve].
  - intros [= <-]. auto.
  - destruct (reading_at h l) as [r |]; [| discriminate].
    destruct (resolve h d) as [rs' |]; [| discriminate].
    intros [= <-]. destruct (IH _ eq_refl) as [E1 E2]. cbn. rewrite E2.
    unfold keys in E1. rewrite E1. auto.
Qed.

Lemma forallb_get {V} (f : string * V -> bool) k v d :
  (forall k', f (k', v) = f (k, v)) ->
  forallb f d = true -> dict_get k d = Some v -> f (k, v) = true.
Proof.
  intros Hk. induction d as [| [k' v'] d IH]; cbn; [discriminate |].
  intros H. apply andb_prop in H as [H1 H2].
  destruct (String.eqb k k').
  - intros [= ->]. rewrite <- (Hk k'). exact H1.
  - apply IH, H2.
Qed.

(** ** The steps of the script *)

Lemma known_reading_key k k' r : known_reading (k', r) = known_reading (k, r).
Proof. reflexivity. Qed.

Lemma for_each_invariant {A} (P : World -> Prop) (Q : A -> Prop) body (l : list A) w :
  (forall x w, Q x -> P w -> exists w', body x w = Ok (tt, w') /\ P w') ->
  Forall Q l -> P w ->
  exists w', for_each l body w = Ok (tt, w') /\ P w'.
Proof.
  intros Hbody Hl. revert w.
  induction Hl as [| x l Hx Hl IH]; intros w Hw; cbn [for_each].
  - exists w. auto.
  - destruct (Hbody x w Hx Hw) as (w1 & E1 & H1).
    destruct (IH w1 H1) as (w2 & E2 & H2).
    exists w2. unfold bind. rewrite E1. auto.
Qed.

Lemma bind_ok {A B} (c : M A) (k : A -> M B) w a w1 :
  c w = Ok (a, w1) -> bind c k w = k a w1.
Proof. intros H. unfold bind. rewrite H. reflexivity. Qed.

Lemma load_dict_run w l d :
  heap w !! l = Some (DictObj d) -> load_dict l w = Ok (d, w).
Proof. intros H. unfold load_dict, load, bind. rewrite H. reflexivity. Qed.

Lemma load_reading_run w l r :
  heap w !! l = Some (ReadingObj r) -> load_reading l w = Ok (r, w).
Proof. intros H. unfold load_reading, load, bind. rewrite H. reflexivity. Qed.

Lemma subscript_run {V} (d : dict V) k v w :
  dict_get k d = Some v -> subscript d k w = Ok (v, w).
Proof. intros H. unfold subscript. rewrite H. reflexivity. Qed.

(** Run the first computation of a [bind], given a proof of its result. *)
Tactic Notation "run" tactic3(tac) :=
  lazymatch goal with
  | |- bind ?c ?k ?w = _ =>
      let H := fresh "Hrun" in
      eassert (H : c w = Ok (_, _)) by tac;
      rewrite (bind_ok c k w _ _ H); clear H; cbv beta zeta
  end.

Section Steps.

Variable random : nat -> Q.

(** [cells_data[k] = generate_cell_data(ct, k, t)] with a known [ct]. *)
Lemma generate_then_set ct k t w d config :
  dict_at (heap w) (cells_data (session_state w)) = Some d ->
  dict_ok (heap w) (cells_data (session_state w)) = true ->
  dict_get ct CELL_CONFIGS = Some config ->
  exists w',
    (let* l := generate_cell_data random ct k t in set_cell k l) w = Ok (tt, w') /\
    session_state w' = session_state w /\
    unchanged_except (cells_data (session_state w)) (heap w) (heap w') /\
    dict_at (heap w') (cells_data (session_state w))
      = Some (dict_set k (length (heap w)) d) /\
    dict_ok (heap w') (cells_data (session_state w)) = true.
Proof.
  intros Hd Hok Hc.
  destruct w as [h [cd hist mon] n].
  cbn [heap session_state rng cells_data] in *.
  pose proof Hd as Hd'. apply dict_at_Some in Hd'.
  assert (Hlt : cd < length h) by (eapply lookup_lt_Some; eauto).
  set (R := reading_of_draws config ct k t (random n) (random (1 + n))
              (random (2 + n)) (random (3 + n))).
  set (h1 := <[cd := DictObj (dict_set k (length h) d)]> (h ++ [ReadingObj R])).
  exists (mkWorld h1 (mkSession cd hist mon) (4 + n)).
  assert (Hframe : unchanged_except cd h h1).
  { eapply unchanged_except_trans;
      [apply unchanged_except_app | apply unchanged_except_insert]. }
  assert (Hd1 : dict_at h1 cd = Some (dict_set k (length h) d)).
  { apply dict_at_Some. apply list_lookup_insert_eq. rewrite length_app. lia. }
  split; [| split; [reflexivity | split; [exact Hframe | split; [exact Hd1 |]]]].
  - unfold bind at 1. rewrite (generate_cell_data_known _ _ _ _ _ _ Hc).
    unfold set_cell, load_dict, load, get_session, store, bind, ret.
    cbn [heap session_state rng cells_data].
    rewrite lookup_app_l by lia. rewrite Hd'. reflexivity.
  - cbn [heap]. unfold dict_ok, readings_at in *. rewrite Hd1. rewrite Hd in Hok.
    destruct (resolve h d) as [rs |] eqn:Hrs; [| discriminate].
    assert (Hr : reading_at h1 (length h) = Some R).
    { apply reading_at_Some. unfold h1.
      rewrite list_lookup_insert_ne by lia.
      rewrite lookup_app_r by lia. rewrite Nat.sub_diag. reflexivity. }
    rewrite (resolve_dict_set h1 k _ R d rs);
      [| eapply resolve_frame; eauto using dict_at_not_reading | exact Hr].
    apply forallb_dict_set; [intros; apply known_reading_key | | exact Hok].
    unfold known_reading, R, reading_of_draws. cbn [snd Cell.cell_type].
    rewrite Hc. reflexivity.
Qed.

Lemma regenerate_ok t k w d :
  dict_at (heap w) (cells_data (session_state w)) = Some d ->
  dict_ok (heap w) (cells_data (session_state w)) = true ->
  k ∈ keys d ->
  exists w' d',
    regenerate random t k w = Ok (tt, w') /\
    session_state w' = session_state w /\
    unchanged_except (cells_data (session_state w)) (heap w) (heap w') /\
    dict_at (heap w') (cells_data (session_state w)) = Some d' /\
    keys d' = keys d /\
    dict_ok (heap w') (cells_data (session_state w)) = true.
Proof.
  intros Hd Hok Hk.
  pose proof Hd as Hd'. apply dict_at_Some in Hd'.
  apply dict_get_elem in Hk as [l Hl].
  pose proof Hok as Hok'. unfold dict_ok, readings_at in Hok'. rewrite Hd in Hok'.
  destruct (resolve (heap w) d) as [rs |] eqn:Hrs; [| discriminate].
  destruct (resolve_get _ _ _ _ _ Hrs Hl) as (r & Hr & Hgr).
  pose proof (forallb_get known_reading k r rs
                (fun k' => known_reading_key k k' r) Hok' Hgr) as Hkn.
  unfold known_reading in Hkn. cbn [snd] in Hkn.
  destruct (dict_get (Cell.cell_type r) CELL_CONFIGS) as [config |] eqn:Hc;
    [| discriminate].
  destruct (generate_then_set (Cell.cell_type r) k t w d config Hd Hok Hc)
    as (w' & E & Hs & Hf & Hd1 & Hok1).
  exists w', (dict_set k (length (heap w)) d).
  split; [| split; [exact Hs | split; [exact Hf | split; [exact Hd1 | split;
            [| exact Hok1]]]]].
  - unfold regenerate.
    run (reflexivity).
    run (apply load_dict_run, Hd').
    run (apply subscript_run, Hl).
    run (apply load_reading_run, reading_at_Some, Hr).
    exact E.
  - apply keys_dict_set. eapply dict_get_Some_elem, Hl.
Qed.

Lemma regenerate_all_ok t w d :
  dict_at (heap w) (cells_data (session_state w)) = Some d ->
  dict_ok (heap w) (cells_data (session_state w)) = true ->
  exists w' d',
    for_each (keys d) (regenerate random t) w = Ok (tt, w') /\
    session_state w' = session_state w /\
    unchanged_except (cells_data (session_state w)) (heap w) (heap w') /\
    dict_at (heap w') (cells_data (session_state w)) = Some d' /\
    keys d' = keys d /\
    dict_ok (heap w') (cells_data (session_state w)) = true.
Proof.
  intros Hd Hok.
  set (cd := cells_data (session_state w)).
  destruct (for_each_invariant
    (fun w1 => session_state w1 = session_state w /\
               unchanged_except cd (heap w) (heap w1) /\
               exists d1, dict_at (heap w1) cd = Some d1 /\ keys d1 = keys d /\
                          dict_ok (heap w1) cd = true)
    (fun k => k ∈ keys d) (regenerate random t) (keys d) w)
    as (w' & E & Hs & Hf & d' & Hd' & Hk & Hok').
  - intros k w1 Hk (Hs & Hf & d1 & Hd1 & Hk1 & Hok1).
    unfold cd in Hd1, Hok1. rewrite <- Hs in Hd1, Hok1. rewrite <- Hk1 in Hk.
    destruct (regenerate_ok t k w1 d1 Hd1 Hok1 Hk)
      as (w2 & d2 & E & Hs2 & Hf2 & Hd2 & Hk2 & Hok2).
    rewrite Hs in Hf2, Hd2, Hok2.
    exists w2. split; [exact E |].
    split; [congruence |]. split; [eapply unchanged_except_trans; eassumption |].
    exists d2. split; [exact Hd2 |]. split; [congruence | exact Hok2].
  - apply Forall_forall. auto.
  - split; [reflexivity |]. split; [apply unchanged_except_refl |].
    exists d. auto.
  - exists w', d'. repeat split; assumption.
Qed.

End Steps.

(** ** The invariant *)

Lemma dict_ok_inv h l :
  dict_ok h l = true ->
  exists d rs, dict_at h l = Some d /\ resolve h d = Some rs /\
               forallb known_reading rs = true.
Proof.
  unfold dict_ok, readings_at. intros H.
  destruct (dict_at h l) as [d |]; [| discriminate].
  destruct (resolve h d) as [rs |] eqn:E; [| discriminate].
  eauto.
Qed.

Lemma dict_ok_lt h l : dict_ok h l = true -> l < length h.
Proof.
  intros H. apply dict_ok_inv in H as (d & _ & H & _).
  apply dict_at_Some in H. eapply lookup_lt_Some, H.
Qed.

Lemma dict_ok_app h h2 l : dict_ok h l = true -> dict_ok (h ++ h2) l = true.
Proof.
  intros H. pose proof (dict_ok_lt _ _ H) as Hlt.
  apply (dict_ok_frame (length h) h); [| | lia | exact H].
  - apply unchanged_except_app.
  - apply fresh_not_reading. lia.
Qed.

Lemma wf_live w : wf w = true -> dict_ok (heap w) (cells_data (session_state w)) = true.
Proof. unfold wf. intros H. apply andb_prop in H. tauto. Qed.

Lemma wf_hist w snap :
  wf w = true -> snap ∈ historical_data (session_state w) ->
  Snapshot.data snap <> cells_data (session_state w) /\
  dict_ok (heap w) (Snapshot.data snap) = true.
Proof.
  unfold wf. intros H Hin. apply andb_prop in H as [_ H].
  rewrite forallb_forall in H. apply list_elem_of_In in Hin.
  apply H in Hin. apply andb_prop in Hin as [H1 H2].
  split; [| exact H2].
  apply Bool.negb_true_iff, Nat.eqb_neq in H1. exact H1.
Qed.

Lemma wf_intro w :
  dict_ok (heap w) (cells_data (session_state w)) = true ->
  (forall snap, snap ∈ historical_data (session_state w) ->
     Snapshot.data snap <> cells_data (session_state w) /\
     dict_ok (heap w) (Snapshot.data snap) = true) ->
  wf w = true.
Proof.
  intros H1 H2. unfold wf. rewrite H1. cbn [andb].
  apply forallb_forall. intros snap Hin. apply list_elem_of_In in Hin.
  destruct (H2 snap Hin) as [Hne Hok]. rewrite Hok.
  apply Nat.eqb_neq in Hne. rewrite Hne. reflexivity.
Qed.

Lemma elem_of_appended snap h new :
  snap ∈ appended h new -> snap ∈ h \/ snap = new.
Proof.
  unfold appended, last_records. intros H.
  assert (Hin : snap ∈ h ++ [new]).
  { destruct (Nat.ltb 100 _); [| exact H]. eapply subseteq_drop, H. }
  apply elem_of_app in Hin as [Hin | Hin]; [auto |].
  apply list_elem_of_singleton in Hin. auto.
Qed.

Lemma frozen_refl w : frozen w w.
Proof. intros l rs Hl H. auto. Qed.

Lemma frozen_trans w1 w2 w3 : frozen w1 w2 -> frozen w2 w3 -> frozen w1 w3.
Proof.
  intros H12 H23 l rs Hl H.
  destruct (H12 l rs Hl H) as [Hl2 H2]. apply H23; assumption.
Qed.

(** A step that keeps [cells_data] and every other object is a frozen one. *)
Lemma frozen_intro w w' :
  cells_data (session_state w') = cells_data (session_state w) ->
  unchanged_except (cells_data (session_state w)) (heap w) (heap w') ->
  is_Some (dict_at (heap w) (cells_data (session_state w))) ->
  frozen w w'.
Proof.
  intros Hcd Hf [d Hd] l rs Hl H. rewrite Hcd. split; [exact Hl |].
  eapply readings_at_frame; eauto using dict_at_not_reading.
Qed.

Lemma dict_at_app h h2 l d : dict_at h l = Some d -> dict_at (h ++ h2) l = Some d.
Proof. rewrite !dict_at_Some. apply lookup_app_l_Some. Qed.

Lemma lookup_app_new (h : list Obj) o : (h ++ [o]) !! length h = Some o.
Proof. rewrite lookup_app_r by lia. rewrite Nat.sub_diag. reflexivity. Qed.

Lemma resolve_app h h2 d rs : resolve h d = Some rs -> resolve (h ++ h2) d = Some rs.
Proof.
  apply (resolve_frame (length h)).
  - apply unchanged_except_app.
  - apply fresh_not_reading. lia.
Qed.

Lemma keys_nil_iff {V W} (d : dict V) (d' : dict W) :
  keys d' = keys d -> (d' = [] <-> d = []).
Proof. destruct d, d'; cbn; split; congruence. Qed.

(** ** The main content area *)

Section Session.

Variable random : nat -> Q.

(** The monitoring update regenerates the cells in place and appends a
    record whose [data] is a new dict with the readings of that tick. *)
Lemma monitoring_update_ok t w :
  wf w = true ->
  exists w' c,
    monitoring_update random t w = Ok (tt, w') /\
    wf w' = true /\
    cells_data (session_state w') = cells_data (session_state w) /\
    is_monitoring (session_state w') = is_monitoring (session_state w) /\
    historical_data (session_state w')
      = appended (historical_data (session_state w)) (Snapshot.mk t c) /\
    unchanged_except (cells_data (session_state w)) (heap w) (heap w') /\
    c <> cells_data (session_state w) /\
    readings_at (heap w') c
      = readings_at (heap w') (cells_data (session_state w)) /\
    has_cells w' = has_cells w /\
    (forall snap,
        snap ∈ historical_data (session_state w) -> Snapshot.data snap < c).
Proof.
  intros Hwf.
  pose proof (wf_live w Hwf) as Hok.
  destruct (dict_ok_inv _ _ Hok) as (d & rs & Hd & Hrs & Hkn).
  destruct (regenerate_all_ok random t w d Hd Hok)
    as (w1 & d1 & E1 & Hs1 & Hf1 & Hd1 & Hk1 & Hok1).
  destruct (dict_ok_inv _ _ Hok1) as (d1' & rs1 & Hd1' & Hrs1 & Hkn1).
  assert (d1' = d1) as -> by congruence. clear Hd1'.
  pose proof (dict_ok_lt _ _ Hok1) as Hlt1.
  destruct w as [h [cd hist mon] n]. destruct w1 as [h1 s1 n1].
  cbn [heap session_state rng cells_data historical_data is_monitoring] in *.
  subst s1.
  exists (mkWorld (h1 ++ [DictObj d1])
                  (mkSession cd (appended hist (Snapshot.mk t (length h1))) mon) n1),
         (length h1).
  assert (Hd2 : dict_at (h1 ++ [DictObj d1]) cd = Some d1) by (apply dict_at_app, Hd1).
  assert (Hnew : readings_at (h1 ++ [DictObj d1]) (length h1) = Some rs1).
  { unfold readings_at, dict_at. rewrite lookup_app_new. apply resolve_app, Hrs1. }
  cbn [heap session_state rng cells_data historical_data is_monitoring].
  split; [| split; [| split; [reflexivity | split; [reflexivity | split;
    [reflexivity | split; [| split; [lia | split; [| split]]]]]]]].
  - unfold monitoring_update.
    run reflexivity.
    run (apply load_dict_run, dict_at_Some, Hd).
    run (exact E1).
    run reflexivity.
    run (apply load_dict_run, dict_at_Some, Hd1).
    run reflexivity.
    run reflexivity.
    unfold appended.
    cbn [heap session_state rng cells_data historical_data is_monitoring].
    destruct (Nat.ltb 100 _); reflexivity.
  - apply wf_intro;
      cbn [heap session_state rng cells_data historical_data is_monitoring].
    + apply dict_ok_app, Hok1.
    + intros snap Hin. apply elem_of_appended in Hin as [Hin | ->].
      * destruct (wf_hist _ snap Hwf Hin) as [Hne Hsnap].
        cbn [heap session_state cells_data] in Hne, Hsnap.
        split; [exact Hne |].
        apply dict_ok_app.
        apply (dict_ok_frame cd h h1 Hf1); eauto using dict_at_not_reading.
      * cbn [Snapshot.data]. split; [lia |].
        unfold dict_ok. rewrite Hnew. exact Hkn1.
  - eapply unchanged_except_trans; [exact Hf1 | apply unchanged_except_app].
  - rewrite Hnew. unfold readings_at. rewrite Hd2. symmetry. apply resolve_app, Hrs1.
  - unfold has_cells. cbn [heap session_state cells_data]. rewrite Hd2, Hd.
    pose proof (keys_nil_iff d d1 Hk1) as Hnil.
    destruct d, d1; try reflexivity; exfalso;
      [destruct Hnil as [_ Hn] | destruct Hnil as [Hn _]];
      specialize (Hn eq_refl); discriminate.
  - intros snap Hin.
    destruct (wf_hist _ snap Hwf Hin) as [Hne Hsnap].
    cbn [heap session_state cells_data] in Hne, Hsnap.
    apply (dict_ok_lt h1).
    apply (dict_ok_frame cd h h1 Hf1); eauto using dict_at_not_reading.
Qed.

Lemma load_readings_run w d rs :
  resolve (heap w) d = Some rs -> load_readings (values d) w = Ok (values rs, w).
Proof.
  revert rs. induction d as [| [k l] d IH]; intros rs; cbn [resolve].
  - intros [= <-]. reflexivity.
  - destruct (reading_at (heap w) l) as [r |] eqn:Hr; [| discriminate].
    destruct (resolve (heap w) d) as [rs' |]; [| discriminate].
    intros [= <-]. cbn [values map snd load_readings].
    run (apply load_reading_run, reading_at_Some, Hr).
    run (apply IH; reflexivity).
    reflexivity.
Qed.

Lemma system_overview_ok w d rs :
  dict_at (heap w) (cells_data (session_state w)) = Some d ->
  resolve (heap w) d = Some rs ->
  system_overview w =
    Ok (mkMetrics (length rs)
                  (count_status Good (values rs))
                  (count_status Warning (values rs))
                  (count_status Critical (values rs))
                  (np_mean (map Cell.health (values rs)))
                  (fold_left Qplus (map Cell.power (values rs)) 0%Q), w).
Proof.
  intros Hd Hrs. unfold system_overview.
  run reflexivity.
  run (apply load_dict_run, dict_at_Some, Hd).
  run (apply load_readings_run, Hrs).
  destruct (resolve_values _ _ _ Hrs) as [_ ->]. reflexivity.
Qed.

Lemma np_mean_nonempty (l : list Q) :
  l <> [] ->
  np_mean l = Some (fold_left Qplus l 0 / inject_Z (Z.of_nat (length l)))%Q.
Proof. destruct l; [congruence | reflexivity]. Qed.

Lemma has_cells_true w :
  has_cells w = true <->
  exists kl d, dict_at (heap w) (cells_data (session_state w)) = Some (kl :: d).
Proof.
  unfold has_cells.
  destruct (dict_at _ _) as [[| kl d] |]; split; try discriminate; eauto;
    intros (kl' & d' & H); discriminate.
Qed.

Lemma has_cells_false w :
  wf w = true ->
  (has_cells w = false <->
   dict_at (heap w) (cells_data (session_state w)) = Some []).
Proof.
  intros Hwf. apply wf_live, dict_ok_inv in Hwf as (d & rs & Hd & _).
  unfold has_cells. rewrite Hd. destruct d; cbn; split; intros; first [reflexivity | discriminate].
Qed.

(** What the main content area does, by the cases of its two tests. *)
Lemma main_content_ok t w :
  wf w = true ->
  exists v w',
    main_content random t w = Ok (v, w') /\
    wf w' = true /\ frozen w w' /\
    cells_data (session_state w') = cells_data (session_state w) /\
    is_monitoring (session_state w') = is_monitoring (session_state w) /\
    has_cells w' = has_cells w /\
    (has_cells w = false -> v = Placeholder /\ w' = w) /\
    (has_cells w = true ->
     (exists rs,
        readings_at (heap w') (cells_data (session_state w')) = Some rs /\
        rs <> [] /\
        v = Overview
              (mkMetrics (length rs)
                 (count_status Good (values rs))
                 (count_status Warning (values rs))
                 (count_status Critical (values rs))
                 (np_mean (map Cell.health (values rs)))
                 (fold_left Qplus (map Cell.power (values rs)) 0%Q))) /\
     (is_monitoring (session_state w) = false -> w' = w) /\
     (is_monitoring (session_state w) = true ->
      exists c,
        historical_data (session_state w')
          = appended (historical_data (session_state w)) (Snapshot.mk t c) /\
        c <> cells_data (session_state w') /\
        readings_at (heap w') c
          = readings_at (heap w') (cells_data (session_state w')) /\
        (forall snap,
            snap ∈ historical_data (session_state w) -> Snapshot.data snap < c))).
Proof.
  intros Hwf.
  pose proof (wf_live w Hwf) as Hok.
  destruct (dict_ok_inv _ _ Hok) as (d & rs & Hd & Hrs & Hkn).
  destruct d as [| kl d].
  - (* no cells: the placeholder *)
    exists Placeholder, w.
    assert (Hc : has_cells w = false) by (apply has_cells_false; assumption).
    split.
    { unfold main_content. run reflexivity.
      run (apply load_dict_run, dict_at_Some, Hd). reflexivity. }
    split; [exact Hwf |]. split; [apply frozen_refl |].
    repeat (split; [reflexivity |]).
    split; [auto |]. rewrite Hc. discriminate.
  - assert (Hc : has_cells w = true) by (apply has_cells_true; eauto).
    destruct (is_monitoring (session_state w)) eqn:Hmon.
    + (* monitoring: update, then the overview *)
      destruct (monitoring_update_ok t w Hwf)
        as (w' & c & E & Hwf' & Hcd & Hm & Hh & Hf & Hne & Hcopy & Hc' & Hlt).
      pose proof (wf_live w' Hwf') as Hok'.
      destruct (dict_ok_inv _ _ Hok') as (d' & rs' & Hd' & Hrs' & Hkn').
      exists (Overview
                (mkMetrics (length rs')
                   (count_status Good (values rs'))
                   (count_status Warning (values rs'))
                   (count_status Critical (values rs'))
                   (np_mean (map Cell.health (values rs')))
                   (fold_left Qplus (map Cell.power (values rs')) 0%Q))), w'.
      split.
      { unfold main_content. run reflexivity.
        run (apply load_dict_run, dict_at_Some, Hd).
        rewrite Hmon. run (exact E).
        run (apply (system_overview_ok w' d' rs'); assumption). reflexivity. }
      split; [exact Hwf' |].
      split; [apply frozen_intro; eauto |].
      split; [exact Hcd |]. split; [congruence |]. split; [exact Hc' |].
      split; [congruence |]. intros _.
      split; [| split; [discriminate |]].
      * exists rs'. unfold readings_at. rewrite Hd'.
        split; [exact Hrs' |]. split; [| reflexivity].
        rewrite Hc in Hc'. apply has_cells_true in Hc' as (kl' & d0 & Hd0).
        assert (d' = kl' :: d0) as -> by congruence.
        apply resolve_values in Hrs' as [_ Hlen]. destruct rs'; [discriminate |].
        discriminate.
      * intros _. exists c. rewrite Hcd. auto.
    + (* not monitoring: the overview of the cells as they are *)
      exists (Overview
                (mkMetrics (length rs)
                   (count_status Good (values rs))
                   (count_status Warning (values rs))
                   (count_status Critical (values rs))
                   (np_mean (map Cell.health (values rs)))
                   (fold_left Qplus (map Cell.power (values rs)) 0%Q))), w.
      split.
      { unfold main_content. run reflexivity.
        run (apply load_dict_run, dict_at_Some, Hd).
        rewrite Hmon. run reflexivity.
        run (apply (system_overview_ok w (kl :: d) rs); assumption). reflexivity. }
      split; [exact Hwf |]. split; [apply frozen_refl |].
      split; [reflexivity |]. split; [exact Hmon |]. split; [reflexivity |].
      split; [congruence |]. intros _.
      split; [| split; [reflexivity | discriminate]].
      exists rs. unfold readings_at. rewrite Hd.
      split; [exact Hrs |]. split; [| reflexivity].
      apply resolve_values in Hrs as [_ Hlen]. destruct rs; discriminate.
Qed.

End Session.

(** ** The sidebar and whole runs *)

Lemma Forall_combine_snd {A B} (P : B -> Prop) (l1 : list A) (l2 : list B) :
  Forall P l2 -> Forall (fun p => P p.2) (combine l1 l2).
Proof.
  intros H. revert l1. induction H as [| y l2 Hy H IH]; intros [| x l1]; cbn;
    constructor; auto.
Qed.

Lemma valid_inputs_known inp :
  valid_inputs inp = true ->
  Forall (fun ct => is_Some (dict_get ct CELL_CONFIGS)) (cell_types inp).
Proof.
  unfold valid_inputs. intros H.
  apply andb_prop in H as [H _]. apply andb_prop in H as [H _].
  apply Forall_forall. intros ct Hin. apply list_elem_of_In in Hin.
  rewrite forallb_forall in H. specialize (H ct Hin).
  destruct (dict_get ct CELL_CONFIGS); [eauto | discriminate].
Qed.

Section Runs.

Variable random : nat -> Q.

Lemma initialize_cells_ok cts t w :
  wf w = true ->
  Forall (fun ct => is_Some (dict_get ct CELL_CONFIGS)) cts ->
  exists w',
    initialize_cells random cts t w = Ok (tt, w') /\
    wf w' = true /\ frozen w w' /\
    historical_data (session_state w') = historical_data (session_state w) /\
    is_monitoring (session_state w') = is_monitoring (session_state w).
Proof.
  intros Hwf Hcts.
  destruct w as [h [cd hist mon] n].
  set (s2 := mkSession (length h) hist mon).
  set (w2 := mkWorld (h ++ [DictObj []]) s2 n).
  destruct (for_each_invariant
    (fun w3 => session_state w3 = s2 /\
               unchanged_except (length h) (h ++ [DictObj []]) (heap w3) /\
               dict_ok (heap w3) (length h) = true)
    (fun p : nat * string => is_Some (dict_get p.2 CELL_CONFIGS))
    (fun '(i, cell_type) =>
       let cell_id := "Cell_" +:+ str (i + 1) +:+ "_" +:+ cell_type in
       let* l := generate_cell_data random cell_type cell_id t in
       set_cell cell_id l)
    (enumerate cts) w2) as (w' & E & Hs & Hf & Hok).
  - intros [i ct] w3 [config Hc] (Hs & Hf & Hok). cbn [snd] in Hc.
    destruct (dict_ok_inv _ _ Hok) as (d3 & _ & Hd3 & _).
    assert (Hcd : cells_data (session_state w3) = length h) by (rewrite Hs; reflexivity).
    rewrite <- Hcd in Hd3, Hok.
    destruct (generate_then_set random ct ("Cell_" +:+ str (i + 1) +:+ "_" +:+ ct)
                t w3 d3 config Hd3 Hok Hc) as (w4 & E & Hs4 & Hf4 & _ & Hok4).
    rewrite Hcd in Hf4, Hok4.
    exists w4. split; [exact E |]. split; [congruence |].
    split; [eapply unchanged_except_trans; eassumption | exact Hok4].
  - unfold enumerate.
    apply (Forall_combine_snd (fun ct => is_Some (dict_get ct CELL_CONFIGS))), Hcts.
  - split; [reflexivity |]. split; [apply unchanged_except_refl |].
    cbn [heap w2]. unfold dict_ok, readings_at, dict_at.
    rewrite lookup_app_new. reflexivity.
  - assert (Hf' : unchanged_except (length h) h (heap w')).
    { eapply unchanged_except_trans; [apply unchanged_except_app | exact Hf]. }
    assert (Hfresh : reading_at h (length h) = None)
      by (apply fresh_not_reading; lia).
    exists w'. split.
    { unfold initialize_cells. run reflexivity. run reflexivity. run reflexivity.
      exact E. }
    split; [| split; [| rewrite Hs; split; reflexivity]].
    + apply wf_intro; rewrite Hs; cbn [s2 cells_data historical_data]; [exact Hok |].
      intros snap Hin.
      destruct (wf_hist _ snap Hwf Hin) as [_ Hsnap]. cbn [heap] in Hsnap.
      pose proof (dict_ok_lt _ _ Hsnap) as Hlt.
      split; [lia |].
      apply (dict_ok_frame (length h) h (heap w') Hf' Hfresh); [lia | exact Hsnap].
    + intros l rs _ Hl. cbn [heap] in Hl. rewrite Hs. cbn [s2 cells_data].
      assert (Hlt : l < length h).
      { unfold readings_at in Hl. destruct (dict_at h l) as [d |] eqn:Hd;
          [| discriminate].
        apply dict_at_Some in Hd. eapply lookup_lt_Some, Hd. }
      split; [lia |].
      apply (readings_at_frame (length h) h (heap w') Hf' Hfresh); [lia | exact Hl].
Qed.

Lemma set_monitoring_run b w :
  set_monitoring b w =
    Ok (tt, mkWorld (heap w)
              (mkSession (cells_data (session_state w))
                         (historical_data (session_state w)) b) (rng w)).
Proof. reflexivity. Qed.

Lemma wf_set_monitoring b w :
  wf (mkWorld (heap w)
        (mkSession (cells_data (session_state w))
                   (historical_data (session_state w)) b) (rng w)) = wf w.
Proof. reflexivity. Qed.

(** The sidebar: one button at most is clicked in a run. *)
Lemma sidebar_ok inp w :
  wf w = true -> valid_inputs inp = true ->
  exists w',
    sidebar random inp w
      = Ok (auto_refresh inp && is_monitoring (session_state w'), w') /\
    wf w' = true /\ frozen w w' /\
    historical_data (session_state w') = historical_data (session_state w) /\
    is_monitoring (session_state w') =
      match clicked inp with
      | Some StartMonitoring => true
      | Some StopMonitoring => false
      | _ => is_monitoring (session_state w)
      end /\
    (clicked inp <> Some InitializeCells ->
     heap w' = heap w /\ rng w' = rng w /\
     cells_data (session_state w') = cells_data (session_state w)).
Proof.
  intros Hwf Hin. unfold sidebar.
  destruct (clicked inp) as [[| |] |].
  - destruct (initialize_cells_ok (cell_types inp) (now inp) w Hwf
                (valid_inputs_known inp Hin)) as (w' & E & Hwf' & Hfr & Hh & Hm).
    exists w'. split.
    { run (exact E). run reflexivity. run reflexivity. run reflexivity. reflexivity. }
    repeat (split; [assumption |]). congruence.
  - eexists. split.
    { run reflexivity. run (apply set_monitoring_run). run reflexivity.
      run reflexivity. reflexivity. }
    cbn [heap session_state rng cells_data historical_data is_monitoring].
    split; [rewrite wf_set_monitoring; exact Hwf |].
    split; [intros l rs Hl H; auto |]. auto.
  - eexists. split.
    { run reflexivity. run reflexivity. run (apply set_monitoring_run).
      run reflexivity. reflexivity. }
    cbn [heap session_state rng cells_data historical_data is_monitoring].
    split; [rewrite wf_set_monitoring; exact Hwf |].
    split; [intros l rs Hl H; auto |]. auto.
  - exists w. split.
    { run reflexivity. run reflexivity. run reflexivity. run reflexivity.
      reflexivity. }
    split; [exact Hwf |]. split; [apply frozen_refl |]. auto.
Qed.

Lemma script_run_ok inp w :
  wf w = true -> valid_inputs inp = true ->
  exists v w',
    script_run random inp w = Ok (v, w') /\ wf w' = true /\ frozen w w'.
Proof.
  intros Hwf Hin.
  destruct (sidebar_ok inp w Hwf Hin) as (w1 & E1 & Hwf1 & Hfr1 & _).
  destruct (auto_refresh inp && is_monitoring (session_state w1)) eqn:Hre.
  - exists Rerun, w1. split; [| auto].
    unfold script_run. run (exact E1). reflexivity.
  - destruct (main_content_ok random (now inp) w1 Hwf1)
      as (v & w2 & E2 & Hwf2 & Hfr2 & _).
    exists v, w2. split; [| split; [exact Hwf2 | eapply frozen_trans; eassumption]].
    unfold script_run. run (exact E1). exact E2.
Qed.

Lemma script_runs_ok inps w :
  wf w = true -> forallb valid_inputs inps = true ->
  exists vs w',
    script_runs random inps w = Ok (vs, w') /\ wf w' = true /\ frozen w w'.
Proof.
  revert w. induction inps as [| inp inps IH]; intros w Hwf Hin.
  - exists [], w. split; [reflexivity |]. split; [exact Hwf | apply frozen_refl].
  - cbn [forallb] in Hin. apply andb_prop in Hin as [Hin1 Hin2].
    destruct (script_run_ok inp w Hwf Hin1) as (v & w1 & E1 & Hwf1 & Hfr1).
    destruct (IH w1 Hwf1 Hin2) as (vs & w2 & E2 & Hwf2 & Hfr2).
    exists (v :: vs), w2.
    split; [| split; [exact Hwf2 | eapply frozen_trans; eassumption]].
    cbn [script_runs]. run (exact E1). run (exact E2). reflexivity.
Qed.

(** Every world that runs of the script reach from a new session satisfies
    the invariant. *)
Lemma wf_reachable inps vs w :
  forallb valid_inputs inps = true ->
  script_runs random inps initial_world = Ok (vs, w) -> wf w = true.
Proof.
  intros Hin E.
  destruct (script_runs_ok inps initial_world eq_refl Hin) as (vs' & w' & E' & Hwf & _).
  congruence.
Qed.

End Runs.

(** ** The history buffer *)

Lemma length_last_records {A} n (l : list A) :
  length (last_records n l) = Nat.min n (length l).
Proof. unfold last_records. rewrite length_drop. lia. Qed.

(** Cutting after each append keeps the last 100 of all that was appended. *)
Lemma appended_last_records pre snap :
  appended (last_records 100 pre) snap = last_records 100 (pre ++ [snap]).
Proof.
  unfold appended. rewrite length_app, length_last_records. cbn [length].
  unfold last_records. rewrite !length_app, length_drop. cbn [length].
  destruct (Nat.ltb_spec 100 (Nat.min 100 (length pre) + 1)) as [Hgt | Hle].
  - replace (length pre - (length pre - 100) + 1 - 100) with 1 by lia.
    rewrite drop_app_le by (rewrite length_drop; lia).
    rewrite drop_drop.
    rewrite (drop_app_le pre) by lia.
    f_equal. f_equal. lia.
  - replace (length pre - 100) with 0 by lia.
    replace (length pre + 1 - 100) with 0 by lia.
    reflexivity.
Qed.

Lemma last_last_records {A} (l : list A) x :
  last (last_records 100 (l ++ [x])) = Some x.
Proof.
  unfold last_records. rewrite length_app. cbn [length].
  rewrite drop_app_le by lia. apply last_snoc.
Qed.

Section History.

Variable random : nat -> Q.

(** Monitoring ticks, from a buffer that holds the last 100 of the records
    [pre] appended so far.  Each tick appends one record, at the time of the
    tick, whose dict is newer than that of every record in the buffer. *)
Lemma monitor_ok times :
  forall w pre,
    wf w = true -> has_cells w = true ->
    is_monitoring (session_state w) = true ->
    historical_data (session_state w) = last_records 100 pre ->
    exists hs w' new,
      monitor random times w = Ok (hs, w') /\
      length hs = length times /\
      map Snapshot.timestamp new = times /\
      (forall i h, hs !! i = Some h -> last h = new !! i) /\
      historical_data (session_state w') = last_records 100 (pre ++ new) /\
      NoDup (map Snapshot.data new) /\
      (forall snap,
          snap ∈ historical_data (session_state w) ->
          Forall (fun snap' => Snapshot.data snap < Snapshot.data snap') new).
Proof.
  induction times as [| t times IH]; intros w pre Hwf Hc Hmon Hh.
  - exists [], w, []. split; [reflexivity |]. split; [reflexivity |].
    split; [reflexivity |]. split; [intros i h H; discriminate |].
    split; [rewrite app_nil_r; exact Hh |].
    split; [constructor | intros; constructor].
  - destruct (main_content_ok random t w Hwf)
      as (v & w1 & E1 & Hwf1 & _ & _ & Hmon1 & Hc1 & _ & Htick).
    destruct (Htick Hc) as (_ & _ & Happ).
    destruct (Happ Hmon) as (c & Hh1 & _ & _ & Hnew).
    rewrite Hh, appended_last_records in Hh1.
    destruct (IH w1 (pre ++ [Snapshot.mk t c]) Hwf1 ltac:(congruence)
                ltac:(congruence) Hh1)
      as (hs & w2 & new & E2 & Hlen & Hts & Hlast & Hh2 & Hnd & Hlater).
    assert (Hin : Snapshot.mk t c ∈ historical_data (session_state w1)).
    { rewrite Hh1. unfold last_records. rewrite length_app. cbn [length].
      rewrite drop_app_le by lia. apply elem_of_app. right.
      apply list_elem_of_singleton. reflexivity. }
    specialize (Hlater _ Hin). cbn [Snapshot.data] in Hlater.
    exists (historical_data (session_state w1) :: hs), w2, (Snapshot.mk t c :: new).
    split.
    { cbn [monitor]. run (exact E1). run reflexivity. run (exact E2). reflexivity. }
    split; [cbn [length]; congruence |].
    split; [cbn [map Snapshot.timestamp]; congruence |].
    split; [| split; [| split]].
    + intros [| i] h H; cbn in H |- *.
      * injection H as <-. rewrite Hh1. apply last_last_records.
      * apply Hlast, H.
    + rewrite Hh2. rewrite <- app_assoc. reflexivity.
    + cbn [map Snapshot.data]. apply NoDup_cons. split; [| exact Hnd].
      intros Hc'. apply list_elem_of_fmap in Hc' as (snap' & Hd & Hs').
      rewrite Forall_forall in Hlater. specialize (Hlater _ Hs'). lia.
    + intros snap Hsnap. constructor.
      * cbn [Snapshot.data]. apply Hnew, Hsnap.
      * specialize (Hnew _ Hsnap).
        eapply Forall_impl; [exact Hlater |]. cbn beta. intros snap' H'. lia.
Qed.

End History.

(** ** The session: the properties of the script *)

Lemma world_eq w w' :
  heap w' = heap w -> rng w' = rng w ->
  cells_data (session_state w') = cells_data (session_state w) ->
  historical_data (session_state w') = historical_data (session_state w) ->
  is_monitoring (session_state w') = is_monitoring (session_state w) ->
  w' = w.
Proof.
  destruct w as [h [cd hist mon] n], w' as [h' [cd' hist' mon'] n']. cbn.
  intros -> -> -> -> ->. reflexivity.
Qed.

(** Without the Initialize button the sidebar only sets the flag. *)
Lemma sidebar_no_init random inp w :
  clicked inp <> Some InitializeCells ->
  let mon := match clicked inp with
             | Some StartMonitoring => true
             | Some StopMonitoring => false
             | _ => is_monitoring (session_state w)
             end in
  sidebar random inp w =
    Ok (auto_refresh inp && mon,
        mkWorld (heap w)
                (mkSession (cells_data (session_state w))
                           (historical_data (session_state w)) mon) (rng w)).
Proof.
  intros Hc. unfold sidebar.
  destruct w as [h [cd hist mon] n].
  destruct (clicked inp) as [[| |] |]; [congruence | reflexivity ..].
Qed.

Section SessionProperties.

Variable random : nat -> Q.

(** C4: from an empty history buffer, 150 monitoring ticks, each of which
    appends one record, leave exactly 100 records in the buffer: the last
    100 that were appended, in the order of their appending; the first 50
    are no longer in it. *)
Theorem history_keeps_last_100 times w :
  wf w = true -> has_cells w = true ->
  is_monitoring (session_state w) = true ->
  historical_data (session_state w) = [] ->
  length times = 150 ->
  exists hs w' snaps,
    monitor random times w = Ok (hs, w') /\
    length snaps = 150 /\
    map Snapshot.timestamp snaps = times /\
    (forall i h, hs !! i = Some h -> last h = snaps !! i) /\
    length (historical_data (session_state w')) = 100 /\
    historical_data (session_state w') = drop 50 snaps /\
    (forall snap,
        snap ∈ take 50 snaps -> snap ∉ historical_data (session_state w')).
Proof.
  intros Hwf Hc Hmon Hh Hlen.
  destruct (monitor_ok random times w [] Hwf Hc Hmon)
    as (hs & w' & snaps & E & _ & Hts & Hlast & Hh' & Hnd & _).
  { rewrite Hh. reflexivity. }
  assert (Hsn : length snaps = 150).
  { rewrite <- Hlen, <- Hts, length_map. reflexivity. }
  assert (Hdrop : historical_data (session_state w') = drop 50 snaps).
  { cbn [app] in Hh'. rewrite Hh'. unfold last_records. rewrite Hsn. reflexivity. }
  exists hs, w', snaps. rewrite Hdrop.
  repeat (split; [assumption |]).
  split; [rewrite length_drop; lia |]. split; [reflexivity |].
  apply NoDup_fmap_1 in Hnd.
  rewrite <- (take_drop 50 snaps) in Hnd at 1.
  apply NoDup_app in Hnd as (_ & Hdisj & _). exact Hdisj.
Qed.

(** C6: with an empty [cells_data] the main content area shows the
    placeholder and computes no aggregate; the overview is only computed
    for a non-empty set of readings, where the mean is defined, and the
    run never fails. *)
Theorem empty_store_placeholder t w :
  wf w = true ->
  (dict_at (heap w) (cells_data (session_state w)) = Some [] ->
   main_content random t w = Ok (Placeholder, w)) /\
  (exists v w', main_content random t w = Ok (v, w')) /\
  (forall v w',
      main_content random t w = Ok (v, w') ->
      match v with
      | Rerun => False
      | Placeholder =>
          dict_at (heap w) (cells_data (session_state w)) = Some []
      | Overview m =>
          exists rs,
            readings_at (heap w') (cells_data (session_state w')) = Some rs /\
            rs <> [] /\
            total_cells m = length rs /\
            good_cells m + warning_cells m + critical_cells m = length rs /\
            avg_health m
              = Some (fold_left Qplus (map Cell.health (values rs)) 0
                      / inject_Z (Z.of_nat (length rs)))%Q /\
            total_power m = fold_left Qplus (map Cell.power (values rs)) 0%Q
      end).
Proof.
  intros Hwf.
  destruct (main_content_ok random t w Hwf)
    as (v & w' & E & _ & _ & _ & _ & _ & Hempty & Hcells).
  split; [| split; [eauto |]].
  - intros Hd. apply has_cells_false in Hd; [| exact Hwf].
    destruct (Hempty Hd) as [-> ->]. exact E.
  - intros v0 w0 E0. rewrite E in E0. injection E0 as <- <-.
    destruct (has_cells w) eqn:Hc.
    + destruct (Hcells eq_refl) as ((rs & Hrs & Hne & ->) & _).
      exists rs. cbn [total_cells good_cells warning_cells critical_cells
                      avg_health total_power].
      split; [exact Hrs |]. split; [exact Hne |]. split; [reflexivity |].
      split; [| split; [| reflexivity]].
      * unfold count_status, values. rewrite <- (length_map snd rs).
        induction (map snd rs) as [| c cs IH]; [reflexivity |].
        rewrite !filter_cons.
        destruct (Cell.status c); cbn [status_eqb];
          repeat case_decide; try discriminate; try congruence;
          cbn [length]; lia.
      * rewrite np_mean_nonempty.
        -- unfold values. rewrite !length_map. reflexivity.
        -- destruct rs; [congruence | discriminate].
    + destruct (Hempty eq_refl) as [-> _]. apply has_cells_false; assumption.
Qed.

(** C7: the readings of a record of the history are those of its tick for
    good: whatever runs of the script follow, every record that is in the
    buffer denotes the same readings afterwards.  A monitoring tick
    appends a record whose [data] is a new dict, apart from [cells_data],
    with the readings of that tick. *)
Theorem snapshots_immutable inps w :
  wf w = true -> forallb valid_inputs inps = true ->
  (exists vs w',
      script_runs random inps w = Ok (vs, w') /\
      forall snap,
        snap ∈ historical_data (session_state w) ->
        exists rs,
          readings_at (heap w) (Snapshot.data snap) = Some rs /\
          readings_at (heap w') (Snapshot.data snap) = Some rs) /\
  (forall t,
      has_cells w = true -> is_monitoring (session_state w) = true ->
      exists v w1 c,
        main_content random t w = Ok (v, w1) /\
        historical_data (session_state w1)
          = appended (historical_data (session_state w)) (Snapshot.mk t c) /\
        c <> cells_data (session_state w1) /\
        readings_at (heap w1) c
          = readings_at (heap w1) (cells_data (session_state w1))).
Proof.
  intros Hwf Hin. split.
  - destruct (script_runs_ok random inps w Hwf Hin) as (vs & w' & E & _ & Hfr).
    exists vs, w'. split; [exact E |].
    intros snap Hsnap.
    destruct (wf_hist w snap Hwf Hsnap) as [Hne Hok].
    unfold dict_ok in Hok.
    destruct (readings_at (heap w) (Snapshot.data snap)) as [rs |] eqn:Hrs;
      [| discriminate].
    exists rs. split; [reflexivity |]. apply (Hfr _ _ Hne Hrs).
  - intros t Hc Hmon.
    destruct (main_content_ok random t w Hwf)
      as (v & w1 & E & _ & _ & _ & _ & _ & _ & Hcells).
    destruct (Hcells Hc) as (_ & _ & Happ).
    destruct (Happ Hmon) as (c & H1 & H2 & H3 & _).
    exists v, w1, c. auto.
Qed.

(** C10: a run of the main content area while [is_monitoring] is false
    changes nothing, and so does a whole run of the script in which no
    button is clicked; a run in which Stop Monitoring is clicked leaves
    the heap, [cells_data] and [historical_data] as they were. *)
Theorem not_monitoring_unchanged w :
  wf w = true ->
  (forall t,
      is_monitoring (session_state w) = false ->
      exists v, main_content random t w = Ok (v, w)) /\
  (forall inp,
      is_monitoring (session_state w) = false -> clicked inp = None ->
      exists v, script_run random inp w = Ok (v, w)) /\
  (forall inp,
      clicked inp = Some StopMonitoring ->
      exists v w',
        script_run random inp w = Ok (v, w') /\
        heap w' = heap w /\
        cells_data (session_state w') = cells_data (session_state w) /\
        historical_data (session_state w') = historical_data (session_state w) /\
        is_monitoring (session_state w') = false).
Proof.
  intros Hwf.
  assert (Htick : forall t w0, wf w0 = true ->
            is_monitoring (session_state w0) = false ->
            exists v, main_content random t w0 = Ok (v, w0)).
  { intros t w0 Hwf0 Hmon.
    destruct (main_content_ok random t w0 Hwf0)
      as (v & w' & E & _ & _ & _ & _ & _ & Hempty & Hcells).
    exists v. destruct (has_cells w0) eqn:Hc.
    - destruct (Hcells eq_refl) as (_ & Hsame & _).
      rewrite (Hsame Hmon) in E. exact E.
    - destruct (Hempty eq_refl) as [_ Hsame]. rewrite Hsame in E. exact E. }
  split; [intros t; apply Htick, Hwf |]. split.
  - intros inp Hmon Hc.
    pose proof (sidebar_no_init random inp w) as Hs.
    rewrite Hc in Hs. specialize (Hs ltac:(discriminate)). cbv zeta in Hs.
    assert (Hw : mkWorld (heap w)
                   (mkSession (cells_data (session_state w))
                      (historical_data (session_state w))
                      (is_monitoring (session_state w))) (rng w) = w)
      by (destruct w as [h [cd hist mon] n]; reflexivity).
    rewrite Hw, Hmon, Bool.andb_false_r in Hs.
    destruct (Htick (now inp) w Hwf Hmon) as [v E].
    exists v. unfold script_run. run (exact Hs). exact E.
  - intros inp Hc.
    pose proof (sidebar_no_init random inp w) as Hs.
    rewrite Hc in Hs. specialize (Hs ltac:(discriminate)). cbv zeta in Hs.
    rewrite Bool.andb_false_r in Hs.
    set (w1 := mkWorld _ _ _) in Hs.
    destruct (Htick (now inp) w1) as [v E]; [exact Hwf | reflexivity |].
    exists v, w1. split; [| repeat split].
    unfold script_run. run (exact Hs). exact E.
Qed.

End SessionProperties.

(** ** The sample session, evaluated *)

Lemma sample_random_range n : (0 <= sample_random n < 1)%Q.
Proof. unfold sample_random. destruct (Nat.even n); split; qconst. Qed.

Example sample_reading_LFP :
  sample_reading "LFP"
  = Some (Cell.mk "Cell_1" "LFP" 3.150 2.50 26.8 7.88 3.10 99.2 Good 0 2.8 3.6).
Proof. vm_compute. reflexivity. Qed.

Example status_at_the_bounds :
  let lfp := Config.mk 3.2 2.8 3.6 "#2ecc71" in
  status_determination lfp 3.6 30 100 = Good /\
  status_determination lfp 2.8 30 100 = Good /\
  status_determination lfp 3.65 30 100 = Critical /\
  status_determination lfp 3.2 45 100 = Warning /\
  status_determination lfp 3.2 46 100 = Critical /\
  status_determination lfp 3.2 40 80 = Good /\
  status_determination lfp 3.2 30 79.9 = Warning.
Proof. vm_compute. repeat split. Qed.

Example health_at_the_bounds :
  let lfp := Config.mk 3.2 2.8 3.6 "#2ecc71" in
  (overall_health lfp 3.2 35 == 100 /\
   overall_health lfp 3.2 36 == 97.5 /\
   overall_health lfp 3.2 45 == 75 /\
   overall_health lfp 3.2 46 == 72.5 /\
   overall_health lfp 3.2 60 == 50 /\
   overall_health lfp 10 30 == -6.2)%Q.
Proof. vm_compute. repeat split. Qed.

Example armed_world_state :
  wf armed_world = true /\ has_cells armed_world = true /\
  session_state armed_world = mkSession 1 [] true.
Proof. vm_compute. auto. Qed.

Example recorded_world_history :
  historical_data (session_state recorded_world)
  = [Snapshot.mk 20 6; Snapshot.mk 30 9].
Proof. vm_compute. reflexivity. Qed.

Example monitor_150_ticks :
  match monitor sample_random (map Z.of_nat (seq 0 150)) armed_world with
  | Ok (_, w') => map Snapshot.timestamp (historical_data (session_state w'))
  | Raise _ => []
  end = map Z.of_nat (seq 50 100).
Proof. vm_compute. reflexivity. Qed.

Example unknown_chemistry_raises :
  generate_cell_data sample_random "lfp" "Cell_1" 0 initial_world
  = Raise (KeyError "lfp").
Proof. reflexivity. Qed.

Lemma status_rule_witness :
  exists R,
    sample_reading "LFP" = Some R /\
    (Cell.status R = Critical <->
     (Cell.voltage R < 2.8 \/ 3.6 < Cell.voltage R \/ 45 < Cell.temperature R)%Q).
Proof.
  eexists. split; [vm_compute; reflexivity |].
  refine (proj1 (status_rule sample_random "LFP" "Cell_1" 0 initial_world 1
                   _ _ (Config.mk 3.2 2.8 3.6 "#2ecc71") _ _ _));
    vm_compute; reflexivity.
Defined.



Lemma generated_status_good_witness :
  exists R,
    sample_reading "LiCoO2" = Some R /\ Cell.status R = Good.
Proof.
  eexists. split; [vm_compute; reflexivity |].
  refine (proj1 (generated_status_good sample_random sample_random_range
                   "LiCoO2" "Cell_1" 0 initial_world 1
                   _ _ (Config.mk 3.7 3.0 4.2 "#9b59b6") _ _ _));
    vm_compute; reflexivity.
Defined.


Lemma history_keeps_last_100_witness :
  exists hs w' snaps,
    monitor sample_random (map Z.of_nat (seq 0 150)) armed_world = Ok (hs, w') /\
    length snaps = 150 /\
    map Snapshot.timestamp snaps = map Z.of_nat (seq 0 150) /\
    (forall i h, hs !! i = Some h -> last h = snaps !! i) /\
    length (historical_data (session_state w')) = 100 /\
    historical_data (session_state w') = drop 50 snaps /\
    (forall snap,
        snap ∈ take 50 snaps -> snap ∉ historical_data (session_state w')).
Proof.
  apply (history_keeps_last_100 sample_random (map Z.of_nat (seq 0 150)) armed_world);
    vm_compute; reflexivity.
Defined.

Lemma empty_store_placeholder_witness :
  main_content sample_random 0 initial_world = Ok (Placeholder, initial_world).
Proof.
  refine (proj1 (empty_store_placeholder sample_random 0 initial_world _) _);
    vm_compute; reflexivity.
Defined.

Lemma snapshots_immutable_witness :
  exists vs w',
    script_runs sample_random
      [sample_inputs None false 40;
       sample_inputs (Some InitializeCells) false 50;
       sample_inputs None false 60] recorded_world = Ok (vs, w') /\
    forall snap,
      snap ∈ historical_data (session_state recorded_world) ->
      exists rs,
        readings_at (heap recorded_world) (Snapshot.data snap) = Some rs /\
        readings_at (heap w') (Snapshot.data snap) = Some rs.
Proof.
  refine (proj1 (snapshots_immutable sample_random
                   [sample_inputs None false 40;
                    sample_inputs (Some InitializeCells) false 50;
                    sample_inputs None false 60] recorded_world _ _));
    vm_compute; reflexivity.
Defined.

Lemma not_monitoring_unchanged_witness :
  exists v, main_content sample_random 40 idle_world = Ok (v, idle_world).
Proof.
  refine (proj1 (not_monitoring_unchanged sample_random idle_world _) 40%Z _);
    vm_compute; reflexivity.
Defined.

(** * Further properties of the simulator *)

Local Open Scope Q_scope.

Lemma Qabs_zero_iff x : Qabs x == 0 <-> x == 0.
Proof.
  split; intros H.
  - pose proof (Qle_Qabs x). pose proof (Qle_Qabs (- x)).
    rewrite Qabs_opp in *. lra.
  - rewrite H. reflexivity.
Qed.

Lemma Qdiv_le_1 a b : 0 < b -> (a / b <= 1 <-> a <= b).
Proof.
  intros Hb. split; intros H.
  - assert (E : a == a / b * b) by (field; lra).
    assert (H1 : a / b * b <= 1 * b) by (apply Qmult_le_compat_r; lra).
    rewrite E. lra.
  - apply Qle_shift_div_r; lra.
Qed.

Lemma Qdiv_zero_iff a b : 0 < b -> (a / b == 0 <-> a == 0).
Proof.
  intros Hb. split; intros H.
  - assert (E : a == a / b * b) by (field; lra). rewrite E, H. ring.
  - rewrite H. field. lra.
Qed.

Lemma round_at_most x n b hi :
  hi == inject_Z b / inject_Z (10 ^ Z.of_nat n) -> x <= hi -> round x n <= hi.
Proof. intros E H. rewrite E in *. apply round_le, H. Qed.

Lemma round_at_least x n a lo :
  lo == inject_Z a / inject_Z (10 ^ Z.of_nat n) -> lo <= x -> lo <= round x n.
Proof. intros E H. rewrite E in *. apply round_ge, H. Qed.

Lemma temp_health_cases T :
  (T <= 35 /\ temp_health T == 100) \/
  (35 <= T <= 55 /\ temp_health T == 100 - 5 * (T - 35)) \/
  (55 <= T /\ temp_health T == 0).
Proof.
  unfold temp_health.
  destruct (Q.max_spec 0 (T - 35)) as [[H1 E1] | [H1 E1]];
    set (m := Qmax 0 (T - 35)) in *;
    assert (E : m / 20 == m * 0.05) by field;
    destruct (Q.max_spec 0 (1 - m / 20)) as [[H2 E2] | [H2 E2]];
    rewrite E2; rewrite E in *.
  - right. left. split; lra.
  - right. right. split; lra.
  - left. split; lra.
  - exfalso. lra.
Qed.

Lemma temp_health_nonneg T : 0 <= temp_health T.
Proof. destruct (temp_health_cases T) as [[? E] | [[? E] | [? E]]]; rewrite E; lra. Qed.

Lemma voltage_health_nonneg_iff config voltage :
  0 < Config.nominal_voltage config ->
  (0 <= voltage_health config voltage
   <-> 0 <= voltage <= 2 * Config.nominal_voltage config).
Proof.
  intros Hpos. unfold voltage_health.
  set (nominal := Config.nominal_voltage config) in *.
  assert (Hq : Qabs (voltage - nominal) / nominal <= 1
               <-> 0 <= voltage <= 2 * nominal).
  { rewrite (Qdiv_le_1 _ _ Hpos), Qabs_Qle_condition. split; intros; lra. }
  rewrite <- Hq. set (q := Qabs _ / _). split; intros H; lra.
Qed.




(** X3: for each of the four profiles the health is at most 100 whatever
    the voltage and the temperature, is exactly 100 at the nominal voltage
    up to 35 degrees, and is not negative while the voltage is between 0 and
    twice the nominal voltage. *)
Theorem overall_health_bounds config :
  In config (values CELL_CONFIGS) ->
  forall voltage temperature,
    overall_health config voltage temperature <= 100 /\
    (temperature <= 35 ->
     overall_health config (Config.nominal_voltage config) temperature == 100) /\
    (0 <= voltage <= 2 * Config.nominal_voltage config ->
     0 <= overall_health config voltage temperature).
Proof.
  intros Hc voltage temperature.
  destruct (config_nominal config Hc) as (Hn & _).
  assert (Hpos : 0 < Config.nominal_voltage config) by lra.
  pose proof (voltage_health_le config voltage Hpos) as Hv.
  pose proof (temp_health_le temperature) as Ht.
  pose proof (temp_health_nonneg temperature) as Ht0.
  unfold overall_health.
  split; [| split].
  - set (vh := voltage_health config voltage) in *.
    set (th := temp_health temperature) in *.
    assert (E : (vh + th) / 2 == (vh + th) * 0.5) by field.
    apply (round_at_most _ 1 1000); [qconst | rewrite E; lra].
  - intros Hcool.
    assert (Eth : temp_health temperature == 100).
    { destruct (temp_health_cases temperature) as [[_ E] | [[H E] | [H E]]];
        rewrite E; lra. }
    assert (Evh : voltage_health config (Config.nominal_voltage config) == 100).
    { pose proof (Qabs_zero_iff (Config.nominal_voltage config
                                 - Config.nominal_voltage config)) as [_ Hz].
      pose proof (Qdiv_zero_iff
                    (Qabs (Config.nominal_voltage config
                           - Config.nominal_voltage config))
                    (Config.nominal_voltage config) Hpos) as [_ Hd].
      unfold voltage_health. rewrite Hd; [lra | apply Hz; lra]. }
    assert (Ex : (voltage_health config (Config.nominal_voltage config)
                  + temp_health temperature) / 2 == 100)
      by (rewrite Evh, Eth; qconst).
    apply Qle_antisym.
    + apply (round_at_most _ 1 1000); [qconst | rewrite Ex; lra].
    + apply (round_at_least _ 1 1000); [qconst | rewrite Ex; lra].
  - intros Hrange.
    apply (voltage_health_nonneg_iff config voltage Hpos) in Hrange.
    set (vh := voltage_health config voltage) in *.
    set (th := temp_health temperature) in *.
    assert (E : (vh + th) / 2 == (vh + th) * 0.5) by field.
    apply (round_at_least _ 1 0); [qconst | rewrite E; lra].
Qed.

Lemma overall_health_bounds_witness :
  overall_health (Config.mk 3.7 3.0 4.2 "#9b59b6") 9 60 <= 100.
Proof.
  refine (proj1 (overall_health_bounds (Config.mk 3.7 3.0 4.2 "#9b59b6") _ 9 60)).
  simpl. auto.
Defined.

Local Close Scope Q_scope.

Section MoreOfTheSimulator.

Variable random : nat -> Q.
Hypothesis random_range : forall n, (0 <= random n < 1)%Q.

Local Open Scope Q_scope.


Lemma draw_power config u1 u2 :
  In config (values CELL_CONFIGS) -> 0 <= u1 < 1 -> 0 <= u2 < 1 ->
  0 <= round (round (Config.nominal_voltage config + (-0.1 + (0.1 - -0.1) * u1)) 3
              * Qabs (round (-5.0 + (5.0 - -5.0) * u2) 2)) 2
    <= 5 * (Config.nominal_voltage config + 0.1).
Proof.
  intros Hc H1 H2.
  pose proof (draw_voltage config u1 Hc H1) as Hv.
  pose proof (draw_current u2 H2) as Hi.
  pose proof (Qabs_nonneg (round (-5.0 + (5.0 - -5.0) * u2) 2)) as Hi0.
  set (v := round _ 3) in *. set (i := Qabs _) in *.
  simpl in Hc.
  destruct Hc as [<- | [<- | [<- | [<- | []]]]]; cbn [Config.nominal_voltage] in *.
  - apply (round_within _ 2 0 1650); [qconst | qconst | nra].
  - apply (round_within _ 2 0 1850); [qconst | qconst | nra].
  - apply (round_within _ 2 0 1250); [qconst | qconst | nra].
  - apply (round_within _ 2 0 1900); [qconst | qconst | nra].
Qed.


Local Close Scope Q_scope.

End MoreOfTheSimulator.

(** X5: a call of [generate_cell_data] that returns has made one new
    object, the reading, at the end of the heap, has left every other
    object and the session state as they were, and has drawn exactly four
    values from the generator.  The reading carries the cell id, the
    chemistry and the time it was called with, and the voltage bounds of
    the profile of that chemistry. *)
Theorem generate_cell_data_effect random ct id t w l w' :
  generate_cell_data random ct id t w = Ok (l, w') ->
  l = length (heap w) /\
  session_state w' = session_state w /\
  rng w' = 4 + rng w /\
  exists R config,
    heap w' = heap w ++ [ReadingObj R] /\
    dict_get ct CELL_CONFIGS = Some config /\
    Cell.cell_id R = id /\ Cell.cell_type R = ct /\ Cell.timestamp R = t /\
    Cell.min_voltage R = Config.min_voltage config /\
    Cell.max_voltage R = Config.max_voltage config.
Proof.
  intros Hg.
  destruct (dict_get ct CELL_CONFIGS) as [config |] eqn:Hc.
  - rewrite (generate_cell_data_known random ct id t w config Hc) in Hg.
    injection Hg as <- <-. cbn [heap session_state rng].
    repeat split. eexists _, config. repeat split.
  - rewrite (generate_cell_data_unknown random ct id t w Hc) in Hg. discriminate.
Qed.


Lemma generate_cell_data_effect_witness :
  exists w', generate_cell_data sample_random "LTO" "Cell_1" 0 idle_world
             = Ok (length (heap idle_world), w') /\
             session_state w' = session_state idle_world.
Proof.
  eexists. split; [vm_compute; reflexivity |].
  refine (proj1 (proj2 (generate_cell_data_effect sample_random "LTO" "Cell_1" 0
                          idle_world _ _ _))).
  vm_compute; reflexivity.
Defined.

(** * Further properties of the session *)

Lemma length_appended h snap :
  length h <= 100 -> length (appended h snap) = Nat.min 100 (S (length h)).
Proof.
  intros H. unfold appended. rewrite length_app. cbn [length].
  destruct (Nat.ltb_spec 100 (length h + 1)) as [Hgt | Hle].
  - rewrite length_last_records, length_app. cbn [length]. lia.
  - rewrite length_app. cbn [length]. lia.
Qed.

(** Appending to a buffer that is not full keeps all of it; appending to a
    full one drops its oldest record. *)
Lemma appended_cases h snap :
  (length h < 100 -> appended h snap = h ++ [snap]) /\
  (length h = 100 -> appended h snap = drop 1 h ++ [snap]).
Proof.
  unfold appended, last_records. rewrite length_app. cbn [length]. split; intros H.
  - destruct (Nat.ltb_spec 100 (length h + 1)); [lia | reflexivity].
  - destruct (Nat.ltb_spec 100 (length h + 1)); [| lia].
    replace (length h + 1 - 100) with 1 by lia.
    apply drop_app_le. lia.
Qed.

Lemma script_runs_length random inps :
  forall w vs w', script_runs random inps w = Ok (vs, w') -> length vs = length inps.
Proof.
  induction inps as [| inp inps IH]; intros w vs w'; cbn [script_runs].
  - intros [= <- <-]. reflexivity.
  - unfold bind at 1. destruct (script_run random inp w) as [[v w1] | e]; [| discriminate].
    unfold bind at 1.
    destruct (script_runs random inps w1) as [[vs1 w2] | e] eqn:E; [| discriminate].
    intros [= <- <-]. cbn [length]. f_equal. eapply IH, E.
Qed.

Section MoreOfTheSession.

Variable random : nat -> Q.

(** The history after one run: as it was, or with one record appended. *)
Lemma script_run_history inp w :
  wf w = true -> valid_inputs inp = true ->
  exists v w',
    script_run random inp w = Ok (v, w') /\ wf w' = true /\
    (historical_data (session_state w') = historical_data (session_state w) \/
     auto_refresh inp = false /\ is_monitoring (session_state w') = true /\
     exists c, historical_data (session_state w')
               = appended (historical_data (session_state w))
                          (Snapshot.mk (now inp) c)) /\
    (auto_refresh inp = true ->
     (is_monitoring (session_state w') = true <-> v = Rerun)) /\
    (auto_refresh inp = true -> clicked inp <> Some InitializeCells ->
     heap w' = heap w /\
     cells_data (session_state w') = cells_data (session_state w)).
Proof.
  intros Hwf Hin.
  destruct (sidebar_ok random inp w Hwf Hin) as (w1 & E1 & Hwf1 & _ & Hh1 & _ & Hsame).
  destruct (main_content_ok random (now inp) w1 Hwf1)
    as (v & w2 & E2 & Hwf2 & _ & _ & Hmon2 & _ & Hempty & Hcells).
  destruct (auto_refresh inp) eqn:Hauto; cbn [andb] in E1.
  - destruct (is_monitoring (session_state w1)) eqn:Hmon1.
    + exists Rerun, w1. split; [unfold script_run; run (exact E1); reflexivity |].
      split; [exact Hwf1 |]. split; [left; exact Hh1 |].
      split; [intros _; rewrite Hmon1; tauto |].
      intros _ Hc. destruct (Hsame Hc) as (? & _ & ?). auto.
    + assert (Hw : w2 = w1).
      { destruct (has_cells w1) eqn:Hc.
        - apply (Hcells eq_refl). reflexivity.
        - apply (Hempty eq_refl). }
      subst w2.
      exists v, w1. split; [unfold script_run; run (exact E1); exact E2 |].
      split; [exact Hwf1 |]. split; [left; exact Hh1 |].
      split.
      * intros _. rewrite Hmon1. split; [discriminate |].
        intros ->. destruct (has_cells w1) eqn:Hc.
        -- destruct (Hcells eq_refl) as ((rs & _ & _ & Hv) & _). discriminate.
        -- destruct (Hempty eq_refl) as [Hv _]. discriminate.
      * intros _ Hc. destruct (Hsame Hc) as (? & _ & ?). auto.
  - destruct (is_monitoring (session_state w1)) eqn:Hmon1;
      (exists v, w2; split; [unfold script_run; run (exact E1); exact E2 |];
       split; [exact Hwf2 |]; split; [| split; discriminate]).
    + destruct (has_cells w1) eqn:Hc.
      * destruct (Hcells eq_refl) as (_ & _ & Happ).
        destruct (Happ eq_refl) as (c & Hh2 & _).
        right. split; [reflexivity |]. split; [congruence |].
        exists c. rewrite Hh2, Hh1. reflexivity.
      * destruct (Hempty eq_refl) as [_ ->]. left. exact Hh1.
    + left. assert (Hw : w2 = w1).
      { destruct (has_cells w1) eqn:Hc.
        - apply (Hcells eq_refl). reflexivity.
        - apply (Hempty eq_refl). }
      rewrite Hw. exact Hh1.
Qed.

(** X6: from a session that satisfies the invariant, and so from a new
    session, runs of the script with inputs that the widgets can give never
    raise: each run ends with a view, and the invariant holds again. *)
Theorem script_never_raises inps w :
  wf w = true -> forallb valid_inputs inps = true ->
  exists vs w',
    script_runs random inps w = Ok (vs, w') /\
    length vs = length inps /\ wf w' = true.
Proof.
  intros Hwf Hin.
  destruct (script_runs_ok random inps w Hwf Hin) as (vs & w' & E & Hwf' & _).
  exists vs, w'. split; [exact E |]. split; [| exact Hwf'].
  eapply script_runs_length, E.
Qed.

(** X7: [historical_data] never holds more than 100 records: runs of the
    script keep a buffer of at most 100 records within 100, a run changes
    its length by at most one, and a run that appends to a full buffer
    drops the oldest record and nothing else. *)
Theorem history_never_exceeds_100 inps w :
  wf w = true -> forallb valid_inputs inps = true ->
  length (historical_data (session_state w)) <= 100 ->
  (exists vs w',
      script_runs random inps w = Ok (vs, w') /\
      length (historical_data (session_state w')) <= 100) /\
  (forall inp,
      valid_inputs inp = true ->
      exists v w',
        script_run random inp w = Ok (v, w') /\
        (historical_data (session_state w') = historical_data (session_state w) \/
         exists snap,
           Snapshot.timestamp snap = now inp /\
           (length (historical_data (session_state w)) < 100 ->
            historical_data (session_state w')
            = historical_data (session_state w) ++ [snap]) /\
           (length (historical_data (session_state w)) = 100 ->
            historical_data (session_state w')
            = drop 1 (historical_data (session_state w)) ++ [snap]))).
Proof.
  intros Hwf Hin Hlen. split.
  - revert w Hwf Hlen. induction inps as [| inp inps IH]; intros w Hwf Hlen.
    + exists [], w. split; [reflexivity | exact Hlen].
    + cbn [forallb] in Hin. apply andb_prop in Hin as [Hin1 Hin2].
      destruct (script_run_history inp w Hwf Hin1) as (v & w1 & E1 & Hwf1 & Hh & _).
      assert (Hlen1 : length (historical_data (session_state w1)) <= 100).
      { destruct Hh as [-> | (_ & _ & c & ->)]; [exact Hlen |].
        rewrite length_appended by exact Hlen. lia. }
      destruct (IH Hin2 w1 Hwf1 Hlen1) as (vs & w2 & E2 & Hlen2).
      exists (v :: vs), w2. split; [| exact Hlen2].
      cbn [script_runs]. run (exact E1). run (exact E2). reflexivity.
  - intros inp Hin1.
    destruct (script_run_history inp w Hwf Hin1) as (v & w1 & E1 & _ & Hh & _).
    exists v, w1. split; [exact E1 |].
    destruct Hh as [-> | (_ & _ & c & ->)]; [left; reflexivity |].
    right. exists (Snapshot.mk (now inp) c). split; [reflexivity |].
    apply appended_cases.
Qed.

(** X8: while Auto Refresh is checked no record is ever appended.  A run
    under auto refresh leaves [historical_data] as it is; it ends in the
    sidebar exactly when monitoring is on after the buttons, and unless
    Initialize Cells is clicked it leaves the heap and [cells_data] as they
    are too. *)
Theorem auto_refresh_never_records inps w :
  wf w = true -> forallb valid_inputs inps = true ->
  forallb auto_refresh inps = true ->
  (exists vs w',
      script_runs random inps w = Ok (vs, w') /\
      historical_data (session_state w') = historical_data (session_state w)) /\
  (forall inp,
      valid_inputs inp = true -> auto_refresh inp = true ->
      exists v w',
        script_run random inp w = Ok (v, w') /\
        historical_data (session_state w') = historical_data (session_state w) /\
        (is_monitoring (session_state w') = true <-> v = Rerun) /\
        (clicked inp <> Some InitializeCells ->
         heap w' = heap w /\
         cells_data (session_state w') = cells_data (session_state w))).
Proof.
  intros Hwf Hin Hauto. split.
  - revert w Hwf. induction inps as [| inp inps IH]; intros w Hwf.
    + exists [], w. split; reflexivity.
    + cbn [forallb] in Hin, Hauto.
      apply andb_prop in Hin as [Hin1 Hin2]. apply andb_prop in Hauto as [Ha1 Ha2].
      destruct (script_run_history inp w Hwf Hin1) as (v & w1 & E1 & Hwf1 & Hh & _).
      assert (Hh1 : historical_data (session_state w1)
                    = historical_data (session_state w)).
      { destruct Hh as [-> | (Hf & _)]; [reflexivity | congruence]. }
      destruct (IH Hin2 Ha2 w1 Hwf1) as (vs & w2 & E2 & Hh2).
      exists (v :: vs), w2. split; [| congruence].
      cbn [script_runs]. run (exact E1). run (exact E2). reflexivity.
  - intros inp Hin1 Ha1.
    destruct (script_run_history inp w Hwf Hin1)
      as (v & w1 & E1 & _ & Hh & Hre & Hsame).
    exists v, w1. split; [exact E1 |].
    split; [destruct Hh as [-> | (Hf & _)]; [reflexivity | congruence] |].
    split; [apply Hre, Ha1 | apply Hsame, Ha1].
Qed.

End MoreOfTheSession.

Lemma script_never_raises_witness :
  exists vs w',
    script_runs sample_random
      [sample_inputs (Some InitializeCells) false 10;
       sample_inputs (Some StartMonitoring) false 20;
       sample_inputs (Some StopMonitoring) false 30] initial_world = Ok (vs, w') /\
    length vs = 3 /\ wf w' = true.
Proof.
  apply (script_never_raises sample_random
           [sample_inputs (Some InitializeCells) false 10;
            sample_inputs (Some StartMonitoring) false 20;
            sample_inputs (Some StopMonitoring) false 30] initial_world);
    vm_compute; reflexivity.
Defined.

Lemma history_never_exceeds_100_witness :
  exists vs w',
    script_runs sample_random
      [sample_inputs None false 40; sample_inputs None false 50] recorded_world
    = Ok (vs, w') /\
    length (historical_data (session_state w')) <= 100.
Proof.
  refine (proj1 (history_never_exceeds_100 sample_random
                   [sample_inputs None false 40; sample_inputs None false 50]
                   recorded_world _ _ _)).
  - vm_compute; reflexivity.
  - vm_compute; reflexivity.
  - vm_compute. lia.
Defined.

Lemma auto_refresh_never_records_witness :
  exists vs w',
    script_runs sample_random
      [sample_inputs None true 40; sample_inputs (Some StopMonitoring) true 50;
       sample_inputs (Some StartMonitoring) true 60] recorded_world
    = Ok (vs, w') /\
    historical_data (session_state w')
    = historical_data (session_state recorded_world).
Proof.
  refine (proj1 (auto_refresh_never_records sample_random
                   [sample_inputs None true 40;
                    sample_inputs (Some StopMonitoring) true 50;
                    sample_inputs (Some StartMonitoring) true 60]
                   recorded_world _ _ _));
    vm_compute; reflexivity.
Defined.

(** * Cell ids and the cells of a session *)

Lemma all_digits_string_of_uint d : all_digits (NilEmpty.string_of_uint d) = true.
Proof. induction d; cbn; auto. Qed.

Lemma all_digits_str n : all_digits (str n) = true.
Proof.
  unfold str, NilZero.string_of_uint.
  destruct (Nat.to_uint n) eqn:E; try reflexivity;
    rewrite <- E; apply all_digits_string_of_uint.
Qed.

Lemma str_inj n m : str n = str m -> n = m.
Proof.
  assert (Hnil : forall k, Nat.to_uint k <> Decimal.Nil).
  { intros k E. pose proof (Unsigned.to_of (Nat.to_uint k)) as H.
    rewrite Unsigned.of_to, E in H. discriminate H. }
  unfold str. intros H.
  apply (f_equal NilZero.uint_of_string) in H.
  rewrite !NilZero.usu in H by apply Hnil. injection H as H.
  apply Unsigned.to_uint_inj, H.
Qed.

(** Two strings of digits, each followed by an underscore: the digits are
    the same if the whole strings are. *)
Lemma digits_prefix_inj s1 : forall s2 a b,
  all_digits s1 = true -> all_digits s2 = true ->
  s1 +:+ "_" +:+ a = s2 +:+ "_" +:+ b -> s1 = s2.
Proof.
  induction s1 as [| c1 s1 IH]; intros [| c2 s2] a b H1 H2 E; cbn in *.
  - reflexivity.
  - injection E as <- _. discriminate.
  - injection E as -> _. discriminate.
  - injection E as <- E. apply andb_prop in H1 as [_ H1], H2 as [_ H2].
    f_equal. eapply IH; eassumption.
Qed.

Lemma cell_key_inj i ct j ct' : cell_key i ct = cell_key j ct' -> i = j.
Proof.
  unfold cell_key. intros E. cbn in E. injection E as E.
  apply digits_prefix_inj in E; try apply all_digits_str.
  apply str_inj in E. lia.
Qed.

Lemma dict_get_set_eq {V} k (v : V) d : dict_get k (dict_set k v d) = Some v.
Proof.
  induction d as [| [k' v'] d IH]; cbn.
  - rewrite String.eqb_refl. reflexivity.
  - destruct (String.eqb k k') eqn:E; cbn; rewrite ?String.eqb_refl, ?E; auto.
Qed.

Lemma dict_get_set_ne {V} k k' (v : V) d :
  k' <> k -> dict_get k' (dict_set k v d) = dict_get k' d.
Proof.
  intros N. induction d as [| [k0 v0] d IH]; cbn.
  - destruct (String.eqb_spec k' k); [contradiction | reflexivity].
  - destruct (String.eqb_spec k k0) as [-> | N0]; cbn.
    + destruct (String.eqb_spec k' k0); [contradiction | reflexivity].
    + destruct (String.eqb k' k0); [reflexivity | exact IH].
Qed.

Lemma dict_set_fresh {V} k (v : V) d : k ∉ keys d -> dict_set k v d = d ++ [(k, v)].
Proof.
  induction d as [| [k' v'] d IH]; cbn; intros H; [reflexivity |].
  apply not_elem_of_cons in H as [N H].
  destruct (String.eqb_spec k k'); [contradiction |]. f_equal. apply IH, H.
Qed.

Lemma Forall_dict_set {V} (P : string * V -> Prop) k v d :
  P (k, v) -> Forall P d -> Forall P (dict_set k v d).
Proof.
  intros Hv H. induction H as [| [k' v'] d Hx H IH]; cbn.
  - repeat constructor. exact Hv.
  - destruct (String.eqb k k'); constructor; auto.
Qed.

Lemma resolve_get_inv h d rs k r :
  resolve h d = Some rs -> dict_get k rs = Some r ->
  exists l, dict_get k d = Some l /\ reading_at h l = Some r.
Proof.
  revert rs. induction d as [| [k' l'] d IH]; intros rs; cbn [resolve].
  - intros [= <-]. discriminate.
  - destruct (reading_at h l') as [r' |] eqn:Hr'; [| discriminate].
    destruct (resolve h d) as [rs' |] eqn:Hrs; [| discriminate].
    intros [= <-]. cbn [dict_get].
    destruct (String.eqb k k').
    + intros [= <-]. eauto.
    + apply IH. reflexivity.
Qed.

Lemma readings_at_resolve h l rs :
  readings_at h l = Some rs <-> exists d, dict_at h l = Some d /\ resolve h d = Some rs.
Proof.
  unfold readings_at. destruct (dict_at h l) as [d |]; split.
  - eauto.
  - intros (d' & [= <-] & H). exact H.
  - discriminate.
  - intros (d' & H & _). discriminate.
Qed.

Lemma known_reading_config k r :
  known_reading (k, r) = true ->
  exists config, dict_get (Cell.cell_type r) CELL_CONFIGS = Some config.
Proof.
  unfold known_reading. cbn [snd].
  destruct (dict_get (Cell.cell_type r) CELL_CONFIGS); [eauto | discriminate].
Qed.

Section CellsOfASession.

Variable random : nat -> Q.

Lemma generated_reading_of_draws config ct k t n :
  dict_get ct CELL_CONFIGS = Some config ->
  generated random
    (reading_of_draws config ct k t
       (random n) (random (1 + n)) (random (2 + n)) (random (3 + n))).
Proof. intros Hc. exists config, n. split; [exact Hc | reflexivity]. Qed.

(** [cells_data[k] = generate_cell_data(ct, k, t)], by the readings that
    [cells_data] denotes before and after. *)
Lemma generate_then_set_readings ct k t w d rs config :
  dict_at (heap w) (cells_data (session_state w)) = Some d ->
  resolve (heap w) d = Some rs ->
  dict_get ct CELL_CONFIGS = Some config ->
  exists w',
    (let* l := generate_cell_data random ct k t in set_cell k l) w = Ok (tt, w') /\
    session_state w' = session_state w /\
    rng w' = 4 + rng w /\
    unchanged_except (cells_data (session_state w)) (heap w) (heap w') /\
    dict_at (heap w') (cells_data (session_state w))
      = Some (dict_set k (length (heap w)) d) /\
    resolve (heap w') (dict_set k (length (heap w)) d)
      = Some (dict_set k
                (reading_of_draws config ct k t (random (rng w)) (random (1 + rng w))
                   (random (2 + rng w)) (random (3 + rng w))) rs).
Proof.
  intros Hd Hrs Hc.
  destruct w as [h [cd hist mon] n].
  cbn [heap session_state rng cells_data] in *.
  pose proof Hd as Hd'. apply dict_at_Some in Hd'.
  assert (Hlt : cd < length h) by (eapply lookup_lt_Some; eauto).
  set (R := reading_of_draws config ct k t (random n) (random (1 + n))
              (random (2 + n)) (random (3 + n))).
  set (h1 := <[cd := DictObj (dict_set k (length h) d)]> (h ++ [ReadingObj R])).
  exists (mkWorld h1 (mkSession cd hist mon) (4 + n)).
  assert (Hframe : unchanged_except cd h h1).
  { eapply unchanged_except_trans;
      [apply unchanged_except_app | apply unchanged_except_insert]. }
  split; [| split; [reflexivity | split; [reflexivity | split; [exact Hframe | split]]]].
  - unfold bind at 1. rewrite (generate_cell_data_known _ _ _ _ _ _ Hc).
    unfold set_cell, load_dict, load, get_session, store, bind, ret.
    cbn [heap session_state rng cells_data].
    rewrite lookup_app_l by lia. rewrite Hd'. reflexivity.
  - cbn [heap]. apply dict_at_Some. apply list_lookup_insert_eq.
    rewrite length_app. lia.
  - cbn [heap]. apply resolve_dict_set.
    + eapply resolve_frame; eauto using dict_at_not_reading.
    + apply reading_at_Some. unfold h1.
      rewrite list_lookup_insert_ne by lia. apply lookup_app_new.
Qed.

Lemma regenerate_readings t k w d rs r config :
  dict_at (heap w) (cells_data (session_state w)) = Some d ->
  resolve (heap w) d = Some rs ->
  dict_get k rs = Some r ->
  dict_get (Cell.cell_type r) CELL_CONFIGS = Some config ->
  exists w' d',
    regenerate random t k w = Ok (tt, w') /\
    session_state w' = session_state w /\
    rng w' = 4 + rng w /\
    unchanged_except (cells_data (session_state w)) (heap w) (heap w') /\
    dict_at (heap w') (cells_data (session_state w)) = Some d' /\
    resolve (heap w') d'
      = Some (dict_set k
                (reading_of_draws config (Cell.cell_type r) k t
                   (random (rng w)) (random (1 + rng w))
                   (random (2 + rng w)) (random (3 + rng w))) rs).
Proof.
  intros Hd Hrs Hk Hc.
  destruct (resolve_get_inv _ _ _ _ _ Hrs Hk) as (l & Hl & Hr).
  destruct (generate_then_set_readings (Cell.cell_type r) k t w d rs config Hd Hrs Hc)
    as (w' & E & Hs & Hn & Hf & Hd1 & Hrs1).
  exists w', (dict_set k (length (heap w)) d).
  split; [| auto].
  unfold regenerate.
  run reflexivity.
  run (apply load_dict_run, dict_at_Some, Hd).
  run (apply subscript_run, Hl).
  run (apply load_reading_run, reading_at_Some, Hr).
  exact E.
Qed.

(** The loop of the monitoring update over the keys [ks]: the cells it has
    passed hold new readings of the same id and chemistry, the others the
    readings they had. *)
Lemma regenerate_each t ks :
  forall w d rs,
    dict_at (heap w) (cells_data (session_state w)) = Some d ->
    resolve (heap w) d = Some rs ->
    forallb known_reading rs = true ->
    (forall k, k ∈ ks -> k ∈ keys rs) ->
    exists w' d' rs',
      for_each ks (regenerate random t) w = Ok (tt, w') /\
      session_state w' = session_state w /\
      rng w' = 4 * length ks + rng w /\
      unchanged_except (cells_data (session_state w)) (heap w) (heap w') /\
      dict_at (heap w') (cells_data (session_state w)) = Some d' /\
      resolve (heap w') d' = Some rs' /\
      keys rs' = keys rs /\
      forallb known_reading rs' = true /\
      (forall k r0,
          dict_get k rs = Some r0 ->
          exists r',
            dict_get k rs' = Some r' /\
            (k ∈ ks ->
             generated random r' /\ Cell.cell_id r' = k /\
             Cell.cell_type r' = Cell.cell_type r0 /\ Cell.timestamp r' = t) /\
            (k ∉ ks -> r' = r0)) /\
      (Forall (fun kr => generated random kr.2) rs ->
       Forall (fun kr => generated random kr.2) rs').
Proof.
  induction ks as [| k1 ks IH]; intros w d rs Hd Hrs Hkn Hks.
  - exists w, d, rs. split; [reflexivity |]. split; [reflexivity |].
    split; [reflexivity |]. split; [apply unchanged_except_refl |].
    split; [exact Hd |]. split; [exact Hrs |]. split; [reflexivity |].
    split; [exact Hkn |]. split; [| auto].
    intros k r0 H0. exists r0. split; [exact H0 |].
    split; [intros H; apply elem_of_nil in H; contradiction | reflexivity].
  - assert (Hk1 : k1 ∈ keys rs) by (apply Hks; left).
    apply dict_get_elem in Hk1 as [r1 Hr1].
    pose proof (forallb_get known_reading k1 r1 rs
                  (fun k' => known_reading_key k1 k' r1) Hkn Hr1) as Hkn1.
    destruct (known_reading_config _ _ Hkn1) as [config Hc].
    destruct (regenerate_readings t k1 w d rs r1 config Hd Hrs Hr1 Hc)
      as (w1 & d1 & E1 & Hs1 & Hn1 & Hf1 & Hd1 & Hrs1).
    set (R1 := reading_of_draws config (Cell.cell_type r1) k1 t
                 (random (rng w)) (random (1 + rng w))
                 (random (2 + rng w)) (random (3 + rng w))) in *.
    assert (Hg1 : generated random R1) by (apply generated_reading_of_draws, Hc).
    assert (Hkeys1 : keys (dict_set k1 R1 rs) = keys rs).
    { apply keys_dict_set. eapply dict_get_Some_elem, Hr1. }
    rewrite <- Hs1 in Hd1.
    destruct (IH w1 d1 (dict_set k1 R1 rs) Hd1 Hrs1)
      as (w' & d' & rs' & E & Hs & Hn & Hf & Hd' & Hrs' & Hkeys & Hkn' & Hget & Hgen).
    { apply forallb_dict_set; [intros; apply known_reading_key | | exact Hkn].
      unfold known_reading. cbn [snd]. unfold R1, reading_of_draws.
      cbn [Cell.cell_type]. rewrite Hc. reflexivity. }
    { intros k Hk. rewrite Hkeys1. apply Hks. right. exact Hk. }
    rewrite Hs1 in Hf, Hd'.
    exists w', d', rs'.
    split; [cbn [for_each]; run (exact E1); exact E |].
    split; [congruence |].
    split; [rewrite Hn, Hn1; cbn [length]; lia |].
    split; [eapply unchanged_except_trans; eassumption |].
    split; [exact Hd' |]. split; [exact Hrs' |]. split; [congruence |].
    split; [exact Hkn' |]. split.
    + intros k r0 H0.
      destruct (decide (k = k1)) as [-> | Hne].
      * assert (r0 = r1) as -> by congruence.
        destruct (Hget k1 R1 (dict_get_set_eq k1 R1 rs)) as (r' & Hr' & Hin & Hout).
        exists r'. split; [exact Hr' |]. split; [| intros H; exfalso; apply H; left].
        intros _. destruct (decide (k1 ∈ ks)) as [Hmem | Hnot].
        -- destruct (Hin Hmem) as (Hg & Hid & Hty & Hts).
           repeat split; auto.
        -- rewrite (Hout Hnot). repeat split; auto.
      * rewrite <- (dict_get_set_ne k1 k R1 rs Hne) in H0.
        destruct (Hget k r0 H0) as (r' & Hr' & Hin & Hout).
        exists r'. split; [exact Hr' |]. split.
        -- intros Hmem. apply Hin. apply elem_of_cons in Hmem as [? | ?];
             [contradiction | assumption].
        -- intros Hnot. apply Hout. intros Hmem. apply Hnot. right. exact Hmem.
    + intros HF. apply Hgen. apply Forall_dict_set; [exact Hg1 | exact HF].
Qed.

Lemma monitoring_update_readings t w :
  wf w = true ->
  exists w' rs rs',
    monitoring_update random t w = Ok (tt, w') /\
    readings_at (heap w) (cells_data (session_state w)) = Some rs /\
    readings_at (heap w') (cells_data (session_state w')) = Some rs' /\
    keys rs' = keys rs /\
    rng w' = 4 * length rs + rng w /\
    (forall k r0,
        dict_get k rs = Some r0 ->
        exists r',
          dict_get k rs' = Some r' /\ generated random r' /\
          Cell.cell_id r' = k /\ Cell.cell_type r' = Cell.cell_type r0 /\
          Cell.timestamp r' = t) /\
    (Forall (fun kr => generated random kr.2) rs ->
     Forall (fun kr => generated random kr.2) rs').
Proof.
  intros Hwf.
  pose proof (wf_live w Hwf) as Hok.
  destruct (dict_ok_inv _ _ Hok) as (d & rs & Hd & Hrs & Hkn).
  destruct (resolve_values _ _ _ Hrs) as [Hkeys Hlen].
  destruct (regenerate_each t (keys d) w d rs Hd Hrs Hkn)
    as (w1 & d1 & rs1 & E1 & Hs1 & Hn1 & Hf1 & Hd1 & Hrs1 & Hk1 & _ & Hget & Hgen).
  { intros k Hk. rewrite Hkeys. exact Hk. }
  destruct w as [h [cd hist mon] n]. destruct w1 as [h1 s1 n1].
  cbn [heap session_state rng cells_data historical_data is_monitoring] in *.
  subst s1.
  exists (mkWorld (h1 ++ [DictObj d1])
                  (mkSession cd (appended hist (Snapshot.mk t (length h1))) mon) n1),
         rs, rs1.
  cbn [heap session_state rng cells_data historical_data is_monitoring].
  split.
  { unfold monitoring_update.
    run reflexivity.
    run (apply load_dict_run, dict_at_Some, Hd).
    run (exact E1).
    run reflexivity.
    run (apply load_dict_run, dict_at_Some, Hd1).
    run reflexivity.
    run reflexivity.
    unfold appended.
    cbn [heap session_state rng cells_data historical_data is_monitoring].
    destruct (Nat.ltb 100 _); reflexivity. }
  split; [unfold readings_at; rewrite Hd; exact Hrs |].
  split; [unfold readings_at; rewrite (dict_at_app _ _ _ _ Hd1);
          apply resolve_app, Hrs1 |].
  split; [exact Hk1 |].
  split; [rewrite Hn1; unfold keys; rewrite length_map; lia |].
  split; [| exact Hgen].
  intros k r0 H0.
  destruct (Hget k r0 H0) as (r' & Hr' & Hin & _).
  exists r'. split; [exact Hr' |]. apply Hin.
  rewrite <- Hkeys. eapply dict_get_Some_elem, H0.
Qed.

(** With cells and monitoring on, the main content area is the monitoring
    update followed by the overview, which changes nothing. *)
Lemma main_content_monitoring t w w' :
  wf w = true -> has_cells w = true ->
  is_monitoring (session_state w) = true ->
  monitoring_update random t w = Ok (tt, w') ->
  wf w' = true /\ exists v, main_content random t w = Ok (v, w').
Proof.
  intros Hwf Hc Hmon E.
  destruct (monitoring_update_ok random t w Hwf) as (w2 & c & E2 & Hwf2 & _).
  assert (w2 = w') as -> by congruence.
  split; [exact Hwf2 |].
  apply has_cells_true in Hc as (kl & d & Hd).
  destruct (dict_ok_inv _ _ (wf_live w' Hwf2)) as (d' & rs' & Hd' & Hrs' & _).
  eexists. unfold main_content.
  run reflexivity.
  run (apply load_dict_run, dict_at_Some, Hd).
  rewrite Hmon. run (exact E).
  run (apply (system_overview_ok w' d' rs'); assumption). reflexivity.
Qed.

(** X9: a monitoring tick keeps the cells and renews their readings.  The
    cell ids are the same, in the same order; every cell holds a new reading
    of the simulator for that id and the chemistry it had, timed at the
    tick; four random values are drawn per cell. *)
Theorem tick_renews_every_cell t w :
  wf w = true -> has_cells w = true ->
  is_monitoring (session_state w) = true ->
  exists v w' rs rs',
    main_content random t w = Ok (v, w') /\
    readings_at (heap w) (cells_data (session_state w)) = Some rs /\
    readings_at (heap w') (cells_data (session_state w')) = Some rs' /\
    keys rs' = keys rs /\
    rng w' = 4 * length rs + rng w /\
    (forall k r0,
        dict_get k rs = Some r0 ->
        exists r',
          dict_get k rs' = Some r' /\ generated random r' /\
          Cell.cell_id r' = k /\ Cell.cell_type r' = Cell.cell_type r0 /\
          Cell.timestamp r' = t).
Proof.
  intros Hwf Hc Hmon.
  destruct (monitoring_update_readings t w Hwf)
    as (w' & rs & rs' & E & Hrs & Hrs' & Hk & Hn & Hget & _).
  destruct (main_content_monitoring t w w' Hwf Hc Hmon E) as [_ [v Ev]].
  exists v, w', rs, rs'. auto 10.
Qed.

(** The loop of Initialize Cells from the index [a] on: it adds one cell per
    chemistry, after the cells [rs] of smaller indices. *)
Lemma initialize_each t cts :
  forall a w d rs,
    dict_at (heap w) (cells_data (session_state w)) = Some d ->
    resolve (heap w) d = Some rs ->
    Forall (fun ct => is_Some (dict_get ct CELL_CONFIGS)) cts ->
    (forall k, k ∈ keys rs -> exists i ct, k = cell_key i ct /\ i < a) ->
    exists w' d' new,
      for_each (combine (seq a (length cts)) cts)
        (fun '(i, cell_type) =>
           let cell_id := "Cell_" +:+ str (i + 1) +:+ "_" +:+ cell_type in
           let* l := generate_cell_data random cell_type cell_id t in
           set_cell cell_id l) w = Ok (tt, w') /\
      session_state w' = session_state w /\
      unchanged_except (cells_data (session_state w)) (heap w) (heap w') /\
      dict_at (heap w') (cells_data (session_state w)) = Some d' /\
      resolve (heap w') d' = Some (rs ++ new) /\
      (NoDup (keys rs) -> NoDup (keys (rs ++ new))) /\
      Forall2 (fun ict kr =>
                 kr.1 = cell_key ict.1 ict.2 /\
                 Cell.cell_id kr.2 = kr.1 /\ Cell.cell_type kr.2 = ict.2 /\
                 Cell.timestamp kr.2 = t /\ generated random kr.2)
              (combine (seq a (length cts)) cts) new.
Proof.
  induction cts as [| ct cts IH]; intros a w d rs Hd Hrs Hcts Hold.
  - exists w, d, []. rewrite app_nil_r.
    split; [reflexivity |]. split; [reflexivity |].
    split; [apply unchanged_except_refl |]. split; [exact Hd |].
    split; [exact Hrs |]. split; [auto | constructor].
  - apply Forall_cons in Hcts as [[config Hc] Hcts].
    cbn [length seq combine for_each].
    destruct (generate_then_set_readings ct (cell_key a ct) t w d rs config Hd Hrs Hc)
      as (w1 & E1 & Hs1 & _ & Hf1 & Hd1 & Hrs1).
    set (R := reading_of_draws config ct (cell_key a ct) t (random (rng w))
                (random (1 + rng w)) (random (2 + rng w)) (random (3 + rng w))) in *.
    assert (Hfresh : cell_key a ct ∉ keys rs).
    { intros Hin. destruct (Hold _ Hin) as (i & ct' & Heq & Hlt).
      apply cell_key_inj in Heq. lia. }
    rewrite (dict_set_fresh _ R rs Hfresh) in Hrs1.
    rewrite <- Hs1 in Hd1.
    destruct (IH (S a) w1 _ (rs ++ [(cell_key a ct, R)]) Hd1 Hrs1 Hcts)
      as (w' & d' & new & E & Hs & Hf & Hd' & Hrs' & Hnd & Hall).
    { intros k Hk. unfold keys in Hk. rewrite map_app in Hk.
      apply elem_of_app in Hk as [Hk | Hk].
      - destruct (Hold _ Hk) as (i & ct' & Heq & Hlt). exists i, ct'. split; [auto | lia].
      - apply list_elem_of_singleton in Hk. exists a, ct. split; [exact Hk | lia]. }
    rewrite Hs1 in Hf, Hd'.
    rewrite <- app_assoc in Hrs', Hnd. cbn [app] in Hrs', Hnd.
    exists w', d', ((cell_key a ct, R) :: new).
    split; [run (exact E1); exact E |].
    split; [congruence |].
    split; [eapply unchanged_except_trans; eassumption |].
    split; [exact Hd' |]. split; [exact Hrs' |]. split.
    + intros Hnd0. apply Hnd. unfold keys. rewrite map_app.
      apply NoDup_app. split; [exact Hnd0 |]. split.
      * intros k Hk Hk'. apply list_elem_of_singleton in Hk'. subst k.
        contradiction.
      * apply NoDup_singleton.
    + constructor; [| exact Hall]. cbn [fst snd].
      repeat split. apply generated_reading_of_draws, Hc.
Qed.

(** The sidebar when Initialize Cells is clicked. *)
Lemma sidebar_initialize inp w :
  wf w = true -> valid_inputs inp = true ->
  clicked inp = Some InitializeCells ->
  exists b w' rs,
    sidebar random inp w = Ok (b, w') /\
    readings_at (heap w') (cells_data (session_state w')) = Some rs /\
    cells_data (session_state w') = length (heap w) /\
    length rs = length (cell_types inp) /\
    1 <= length rs <= 16 /\
    NoDup (keys rs) /\
    Forall2 (fun ict kr =>
               kr.1 = cell_key ict.1 ict.2 /\
               Cell.cell_id kr.2 = kr.1 /\ Cell.cell_type kr.2 = ict.2 /\
               Cell.timestamp kr.2 = now inp /\ generated random kr.2)
            (enumerate (cell_types inp)) rs /\
    historical_data (session_state w') = historical_data (session_state w) /\
    is_monitoring (session_state w') = is_monitoring (session_state w).
Proof.
  intros Hwf Hin Hclick.
  pose proof (valid_inputs_known inp Hin) as Hcts.
  destruct w as [h [cd hist mon] n].
  set (w2 := mkWorld (h ++ [DictObj []]) (mkSession (length h) hist mon) n).
  destruct (initialize_each (now inp) (cell_types inp) 0 w2 [] [])
    as (w' & d' & rs & E & Hs & _ & Hd' & Hrs' & Hnd & Hall).
  { cbn [w2 heap session_state cells_data]. apply dict_at_Some, lookup_app_new. }
  { reflexivity. }
  { exact Hcts. }
  { intros k Hk. apply elem_of_nil in Hk. contradiction. }
  cbn [app w2 session_state cells_data] in *.
  exists (auto_refresh inp && mon), w', rs.
  assert (Hlen : length rs = length (cell_types inp)).
  { apply Forall2_length in Hall. rewrite <- Hall.
    rewrite length_combine, length_seq. lia. }
  split.
  { unfold sidebar. rewrite Hclick.
    run (unfold initialize_cells; run reflexivity; run reflexivity; run reflexivity;
         exact E).
    run reflexivity. run reflexivity. run reflexivity.
    rewrite Hs. reflexivity. }
  rewrite Hs. cbn [cells_data historical_data is_monitoring heap].
  split; [unfold readings_at; rewrite Hd'; exact Hrs' |].
  split; [reflexivity |]. split; [exact Hlen |].
  split.
  { unfold valid_inputs in Hin. apply andb_prop in Hin as [Hin H16].
    apply andb_prop in Hin as [_ H1].
    apply Nat.leb_le in H1, H16. lia. }
  split; [apply Hnd; constructor |].
  split; [exact Hall | split; reflexivity].
Qed.

(** X10: Initialize Cells replaces [cells_data] by a new dict with one
    reading per selected chemistry, in the order of the selection: the cell
    of index [i] has the id Cell_(i+1)_(chemistry), and its reading is a new
    reading of the simulator for that id and chemistry at the time of the
    click.  The ids are pairwise distinct.  [historical_data] and
    [is_monitoring] are as they were. *)
Theorem initialize_one_cell_each inp w :
  wf w = true -> valid_inputs inp = true ->
  clicked inp = Some InitializeCells ->
  exists b w' rs,
    sidebar random inp w = Ok (b, w') /\
    readings_at (heap w') (cells_data (session_state w')) = Some rs /\
    cells_data (session_state w') = length (heap w) /\
    length rs = length (cell_types inp) /\
    1 <= length rs <= 16 /\
    NoDup (keys rs) /\
    Forall2 (fun ict kr =>
               kr.1 = cell_key ict.1 ict.2 /\
               Cell.cell_id kr.2 = kr.1 /\ Cell.cell_type kr.2 = ict.2 /\
               Cell.timestamp kr.2 = now inp /\ generated random kr.2)
            (enumerate (cell_types inp)) rs /\
    historical_data (session_state w') = historical_data (session_state w) /\
    is_monitoring (session_state w') = is_monitoring (session_state w).
Proof. apply sidebar_initialize. Qed.

Lemma main_content_generated t w :
  wf w = true -> cells_generated random w ->
  exists v w',
    main_content random t w = Ok (v, w') /\ wf w' = true /\
    cells_generated random w' /\
    (v = Placeholder \/
     exists rs, rs <> [] /\ Forall (fun kr => generated random kr.2) rs /\
                v = Overview (metrics_of rs)).
Proof.
  intros Hwf (rs0 & Hrs0 & Hall0).
  destruct (main_content_ok random t w Hwf)
    as (v & w' & E & Hwf' & _ & _ & _ & _ & Hempty & Hcells).
  exists v, w'. split; [exact E |]. split; [exact Hwf' |].
  destruct (has_cells w) eqn:Hc.
  - destruct (Hcells eq_refl) as ((rs & Hrs & Hne & Hv) & Hsame & _).
    assert (Hall : Forall (fun kr => generated random kr.2) rs).
    { destruct (is_monitoring (session_state w)) eqn:Hmon.
      - destruct (monitoring_update_readings t w Hwf)
          as (w2 & rs1 & rs2 & E2 & Hrs1 & Hrs2 & _ & _ & _ & Hgen).
        destruct (main_content_monitoring t w w2 Hwf Hc Hmon E2) as [_ [v2 Ev2]].
        assert (w2 = w') as -> by congruence.
        assert (rs1 = rs0) as -> by congruence.
        assert (rs2 = rs) as -> by congruence.
        apply Hgen, Hall0.
      - rewrite (Hsame eq_refl) in Hrs.
        assert (rs = rs0) as -> by congruence. exact Hall0. }
    split; [exists rs; auto |]. right. exists rs. auto.
  - destruct (Hempty eq_refl) as [-> ->].
    split; [exists rs0; auto | left; reflexivity].
Qed.

Lemma script_run_generated inp w :
  wf w = true -> cells_generated random w -> valid_inputs inp = true ->
  exists v w',
    script_run random inp w = Ok (v, w') /\ wf w' = true /\
    cells_generated random w' /\
    (v = Rerun \/ v = Placeholder \/
     exists rs, rs <> [] /\ Forall (fun kr => generated random kr.2) rs /\
                v = Overview (metrics_of rs)).
Proof.
  intros Hwf Hgen Hin.
  destruct (sidebar_ok random inp w Hwf Hin) as (w1 & E1 & Hwf1 & _ & _ & _ & Hsame).
  assert (Hgen1 : cells_generated random w1).
  { assert (Hdec : clicked inp = Some InitializeCells \/
                   clicked inp <> Some InitializeCells)
      by (destruct (clicked inp) as [[| |] |]; auto; right; discriminate).
    destruct Hdec as [Hc | Hc].
    - destruct (sidebar_initialize inp w Hwf Hin Hc)
        as (b & w2 & rs & E2 & Hrs & _ & _ & _ & _ & Hall & _).
      assert (w2 = w1) as -> by congruence.
      exists rs. split; [exact Hrs |].
      apply Forall2_Forall_r with (Q := fun kr => generated random kr.2) in Hall;
        [exact Hall |].
      apply Forall_forall. intros ict _ kr H. apply H.
    - destruct (Hsame Hc) as (Hh & _ & Hcd).
      destruct Hgen as (rs & Hrs & Hall). exists rs. rewrite Hh, Hcd. auto. }
  destruct (auto_refresh inp && is_monitoring (session_state w1)) eqn:Hre.
  - exists Rerun, w1. split; [unfold script_run; run (exact E1); reflexivity |]. auto.
  - destruct (main_content_generated (now inp) w1 Hwf1 Hgen1)
      as (v & w2 & E2 & Hwf2 & Hgen2 & Hv).
    exists v, w2. split; [unfold script_run; run (exact E1); exact E2 |]. auto.
Qed.

End CellsOfASession.

(** * What the overview shows *)

Lemma fold_left_Qplus_bounds (l : list Q) (lo hi : Q) :
  Forall (fun x => lo <= x <= hi)%Q l ->
  forall a,
    (a + lo * inject_Z (Z.of_nat (length l)) <= fold_left Qplus l a
     <= a + hi * inject_Z (Z.of_nat (length l)))%Q.
Proof.
  induction 1 as [| x l Hx Hl IH]; intros a; cbn [fold_left length].
  - change (inject_Z (Z.of_nat 0)) with 0%Q. lra.
  - specialize (IH (a + x)%Q).
    rewrite Nat2Z.inj_succ, <- Z.add_1_r, inject_Z_plus.
    change (inject_Z 1) with 1%Q.
    set (n := inject_Z (Z.of_nat (length l))) in *. nra.
Qed.

Lemma np_mean_bounds (l : list Q) (lo hi : Q) :
  l <> [] -> Forall (fun x => lo <= x <= hi)%Q l ->
  exists avg, np_mean l = Some avg /\ (lo <= avg <= hi)%Q.
Proof.
  intros Hne Hl. rewrite (np_mean_nonempty l Hne). eexists. split; [reflexivity |].
  pose proof (fold_left_Qplus_bounds l lo hi Hl 0%Q) as Hs.
  assert (Hn : (0 < inject_Z (Z.of_nat (length l)))%Q).
  { change 0%Q with (inject_Z 0). rewrite <- Zlt_Qlt.
    destruct l; [congruence | cbn [length]; lia]. }
  set (n := inject_Z (Z.of_nat (length l))) in *.
  split.
  - apply Qle_shift_div_l; [exact Hn | lra].
  - apply Qle_shift_div_r; [exact Hn | lra].
Qed.

Lemma count_status_all_good (cells : list Cell.t) :
  Forall (fun c => Cell.status c = Good) cells ->
  count_status Good cells = length cells /\
  count_status Warning cells = 0 /\ count_status Critical cells = 0.
Proof.
  unfold count_status.
  induction 1 as [| c cells Hc H IH]; [auto |].
  rewrite !filter_cons, Hc. cbn [status_eqb].
  repeat case_decide; try discriminate; try congruence.
  cbn [length]. destruct IH as (-> & -> & ->). auto.
Qed.

Section Overview.

Variable random : nat -> Q.
Hypothesis random_range : forall n, (0 <= random n < 1)%Q.

(** A reading of the simulator is Good, with a health from 96 to 100 and a
    power from 0 to 19. *)
Lemma generated_good r :
  generated random r ->
  Cell.status r = Good /\ (96 <= Cell.health r <= 100)%Q /\
  (0 <= Cell.power r <= 19)%Q.
Proof.
  intros (config & n & Hc & ->).
  apply dict_get_values in Hc.
  destruct (config_nominal config Hc) as (_ & _ & Hmin & Hmax).
  pose proof (draw_voltage config _ Hc (random_range n)) as Hv.
  pose proof (draw_temperature _ _ (random_range (1 + n)) (random_range (2 + n))) as Ht.
  pose proof (draw_power config _ _ Hc (random_range n) (random_range (1 + n))) as Hp.
  cbn [Cell.status Cell.health Cell.power reading_of_draws]. cbv zeta.
  set (voltage := round _ 3) in *.
  set (temperature := round _ 1) in *.
  pose proof (overall_health_range config voltage temperature Hc Hv (proj2 Ht)) as Hh.
  split; [| split; [exact Hh |]].
  - apply status_determination_rule; cbv zeta; lra.
  - split; [apply Hp |]. eapply Qle_trans; [apply Hp |].
    simpl in Hc. destruct Hc as [<- | [<- | [<- | [<- | []]]]]; qconst.
Qed.

Lemma metrics_of_generated rs :
  rs <> [] -> Forall (fun kr => generated random kr.2) rs ->
  let m := metrics_of rs in
  1 <= total_cells m /\
  good_cells m = total_cells m /\ warning_cells m = 0 /\ critical_cells m = 0 /\
  (exists avg, avg_health m = Some avg /\ (96 <= avg <= 100)%Q) /\
  (0 <= total_power m <= 19 * inject_Z (Z.of_nat (total_cells m)))%Q.
Proof.
  intros Hne Hall. cbv zeta.
  cbn [metrics_of total_cells good_cells warning_cells critical_cells
       avg_health total_power].
  assert (Hvals : Forall (fun c => generated random c) (values rs)).
  { unfold values. apply Forall_fmap. exact Hall. }
  assert (Hlen : length (values rs) = length rs) by (unfold values; apply length_map).
  destruct (count_status_all_good (values rs)) as (Hg & Hw & Hc).
  { eapply Forall_impl; [exact Hvals |]. intros c H. apply generated_good, H. }
  split; [destruct rs; [congruence | cbn [length]; lia] |].
  split; [congruence |]. split; [exact Hw |]. split; [exact Hc |].
  split.
  - apply np_mean_bounds.
    + destruct rs; [congruence | discriminate].
    + apply Forall_fmap. eapply Forall_impl; [exact Hvals |].
      intros c H. apply generated_good, H.
  - pose proof (fold_left_Qplus_bounds (map Cell.power (values rs)) 0 19) as Hs.
    rewrite length_map, Hlen in Hs.
    specialize (Hs ltac:(apply Forall_fmap; eapply Forall_impl; [exact Hvals |];
                         intros c H; apply generated_good, H) 0%Q).
    lra.
Qed.

End Overview.

Section ReachableSessions.

Variable random : nat -> Q.
Hypothesis random_range : forall n, (0 <= random n < 1)%Q.

Lemma script_runs_generated inps :
  forall w,
    wf w = true -> cells_generated random w ->
    forallb valid_inputs inps = true ->
    exists vs w',
      script_runs random inps w = Ok (vs, w') /\
      cells_generated random w' /\
      forall m, Overview m ∈ vs ->
        exists rs, rs <> [] /\ Forall (fun kr => generated random kr.2) rs /\
                   m = metrics_of rs.
Proof.
  induction inps as [| inp inps IH]; intros w Hwf Hgen Hin.
  - exists [], w. split; [reflexivity |]. split; [exact Hgen |].
    intros m Hm. apply elem_of_nil in Hm. contradiction.
  - cbn [forallb] in Hin. apply andb_prop in Hin as [Hin1 Hin2].
    destruct (script_run_generated random inp w Hwf Hgen Hin1)
      as (v & w1 & E1 & Hwf1 & Hgen1 & Hv).
    destruct (IH w1 Hwf1 Hgen1 Hin2) as (vs & w2 & E2 & Hgen2 & Hvs).
    exists (v :: vs), w2.
    split; [cbn [script_runs]; run (exact E1); run (exact E2); reflexivity |].
    split; [exact Hgen2 |].
    intros m Hm. apply elem_of_cons in Hm as [Hm | Hm]; [| apply Hvs, Hm].
    destruct Hv as [-> | [-> | (rs & Hne & Hall & ->)]]; try discriminate.
    injection Hm as ->. eauto.
Qed.

(** X11: in a session that starts new, whatever is clicked, every overview
    that is shown counts all its cells as Good and none as Warning or
    Critical; its average health lies between 96 and 100 and its total
    power between 0 and 19 per cell; and every current reading is Good at
    the end. *)
Theorem overview_shows_all_good inps :
  forallb valid_inputs inps = true ->
  exists vs w',
    script_runs random inps initial_world = Ok (vs, w') /\
    (forall m, Overview m ∈ vs ->
       1 <= total_cells m /\
       good_cells m = total_cells m /\ warning_cells m = 0 /\ critical_cells m = 0 /\
       (exists avg, avg_health m = Some avg /\ (96 <= avg <= 100)%Q) /\
       (0 <= total_power m <= 19 * inject_Z (Z.of_nat (total_cells m)))%Q) /\
    (exists rs,
       readings_at (heap w') (cells_data (session_state w')) = Some rs /\
       Forall (fun kr => Cell.status kr.2 = Good) rs).
Proof.
  intros Hin.
  destruct (script_runs_generated inps initial_world eq_refl) as
    (vs & w' & E & (rs' & Hrs' & Hall') & Hvs); [| exact Hin |].
  { exists []. split; [reflexivity | constructor]. }
  exists vs, w'. split; [exact E |]. split.
  - intros m Hm. destruct (Hvs m Hm) as (rs & Hne & Hall & ->).
    apply (metrics_of_generated random random_range rs Hne Hall).
  - exists rs'. split; [exact Hrs' |].
    eapply Forall_impl; [exact Hall' |].
    intros kr H. apply (generated_good random random_range), H.
Qed.

End ReachableSessions.

Lemma tick_renews_every_cell_witness :
  exists v w' rs rs',
    main_content sample_random 40 armed_world = Ok (v, w') /\
    readings_at (heap armed_world) (cells_data (session_state armed_world)) = Some rs /\
    readings_at (heap w') (cells_data (session_state w')) = Some rs' /\
    keys rs' = keys rs.
Proof.
  destruct (tick_renews_every_cell sample_random 40 armed_world)
    as (v & w' & rs & rs' & H1 & H2 & H3 & H4 & _);
    [vm_compute; reflexivity ..|].
  exists v, w', rs, rs'. auto.
Defined.

Lemma initialize_one_cell_each_witness :
  exists b w' rs,
    sidebar sample_random (sample_inputs (Some InitializeCells) false 70) recorded_world
    = Ok (b, w') /\
    readings_at (heap w') (cells_data (session_state w')) = Some rs /\
    length rs = 2.
Proof.
  destruct (initialize_one_cell_each sample_random
              (sample_inputs (Some InitializeCells) false 70) recorded_world)
    as (b & w' & rs & H1 & H2 & _ & H4 & _);
    [vm_compute; reflexivity ..|].
  exists b, w', rs. auto.
Defined.

Lemma overview_shows_all_good_witness :
  exists vs w',
    script_runs sample_random
      [sample_inputs (Some InitializeCells) false 10;
       sample_inputs (Some StartMonitoring) false 20] initial_world = Ok (vs, w') /\
    forall m, Overview m ∈ vs -> good_cells m = total_cells m.
Proof.
  destruct (overview_shows_all_good sample_random sample_random_range
              [sample_inputs (Some InitializeCells) false 10;
               sample_inputs (Some StartMonitoring) false 20])
    as (vs & w' & E & Hm & _); [vm_compute; reflexivity |].
  exists vs, w'. split; [exact E |]. intros m H. apply (Hm m H).
Defined.

(** * The records of the history *)


Section Records.

Variable random : nat -> Q.






Hypothesis random_range : forall n, (0 <= random n < 1)%Q.


End Records.


(** * An unknown chemistry at Initialize Cells *)

Lemma for_each_app {A} (l1 l2 : list A) body w :
  for_each (l1 ++ l2) body w =
    match for_each l1 body w with
    | Ok (_, w1) => for_each l2 body w1
    | Raise e => Raise e
    end.
Proof.
  revert w. induction l1 as [| x l1 IH]; intros w; cbn [app for_each].
  - reflexivity.
  - unfold bind. destruct (body x w) as [[[] w1] | e]; [apply IH | reflexivity].
Qed.

Lemma combine_seq_app {A} (l1 l2 : list A) a :
  combine (seq a (length (l1 ++ l2))) (l1 ++ l2)
  = combine (seq a (length l1)) l1 ++ combine (seq (a + length l1) (length l2)) l2.
Proof.
  revert a. induction l1 as [| x l1 IH]; intros a; cbn [app length seq combine].
  - rewrite Nat.add_0_r. reflexivity.
  - f_equal. rewrite IH. do 2 f_equal. f_equal. lia.
Qed.

Lemma forallb_known_chemistry cts :
  forallb known_chemistry cts = true ->
  Forall (fun ct => is_Some (dict_get ct CELL_CONFIGS)) cts.
Proof.
  intros H. apply Forall_forall. intros ct Hin. apply list_elem_of_In in Hin.
  rewrite forallb_forall in H. specialize (H ct Hin). unfold known_chemistry in H.
  destruct (dict_get ct CELL_CONFIGS); [eauto | discriminate].
Qed.

(** X13: nothing catches the [KeyError] of the simulator.  If the chemistry
    of some cell is not a key of [CELL_CONFIGS] while those of the cells
    before it are, a run in which Initialize Cells is clicked raises
    [KeyError] for that chemistry. *)
Theorem initialize_unknown_chemistry_raises random inp w before ct after :
  wf w = true ->
  clicked inp = Some InitializeCells ->
  cell_types inp = before ++ ct :: after ->
  forallb known_chemistry before = true ->
  known_chemistry ct = false ->
  script_run random inp w = Raise (KeyError ct).
Proof.
  intros Hwf Hclick Hcts Hbefore Hct.
  apply forallb_known_chemistry in Hbefore.
  assert (Hnone : dict_get ct CELL_CONFIGS = None).
  { unfold known_chemistry in Hct. destruct (dict_get ct CELL_CONFIGS);
      [discriminate | reflexivity]. }
  destruct w as [h [cd hist mon] n].
  set (w2 := mkWorld (h ++ [DictObj []]) (mkSession (length h) hist mon) n).
  destruct (initialize_each random (now inp) before 0 w2 [] [])
    as (w1 & d1 & rs & E & _).
  { cbn [w2 heap session_state cells_data]. apply dict_at_Some, lookup_app_new. }
  { reflexivity. }
  { exact Hbefore. }
  { intros k Hk. apply elem_of_nil in Hk. contradiction. }
  assert (Hinit : initialize_cells random (cell_types inp) (now inp)
                    (mkWorld h (mkSession cd hist mon) n) = Raise (KeyError ct)).
  { unfold initialize_cells. run reflexivity. run reflexivity. run reflexivity.
    unfold enumerate. rewrite Hcts, combine_seq_app, for_each_app.
    match goal with |- context [for_each _ _ ?W] => change W with w2 end.
    cbv zeta in E. rewrite E. cbn [length seq combine for_each]. unfold bind at 1.
    cbv zeta. unfold bind at 1.
    rewrite (generate_cell_data_unknown random ct _ _ _ Hnone). reflexivity. }
  unfold script_run, sidebar. rewrite Hclick.
  unfold bind at 1. unfold bind at 1. rewrite Hinit. reflexivity.
Qed.

Lemma initialize_unknown_chemistry_raises_witness :
  script_run sample_random
    (mkInputs ["LFP"; "NiMH"; "NMC"] (Some InitializeCells) false 10) initial_world
  = Raise (KeyError "NiMH").
Proof.
  apply (initialize_unknown_chemistry_raises sample_random
           (mkInputs ["LFP"; "NiMH"; "NMC"] (Some InitializeCells) false 10)
           initial_world ["LFP"] "NiMH" ["NMC"]); reflexivity.
Defined.

(** * The historical trends tab *)

Lemma record_rows_run timestamp w items rs :
  resolve (heap w) items = Some rs ->
  record_rows timestamp items w = Ok (map (row_of timestamp) rs, w).
Proof.
  revert rs. induction items as [| [k l] items IH]; intros rs; cbn [resolve].
  - intros [= <-]. reflexivity.
  - destruct (reading_at (heap w) l) as [r |] eqn:Hr; [| discriminate].
    destruct (resolve (heap w) items) as [rs' |]; [| discriminate].
    intros [= <-]. cbn [record_rows map].
    run (apply load_reading_run, reading_at_Some, Hr).
    run (apply IH; reflexivity).
    reflexivity.
Qed.

Lemma trend_rows_run w records :
  Forall (fun record => dict_ok (heap w) (Snapshot.data record) = true) records ->
  trend_rows records w = Ok (rows_of (heap w) records, w).
Proof.
  induction 1 as [| record records Hok _ IH]; [reflexivity |].
  destruct (dict_ok_inv _ _ Hok) as (d & rs & Hd & Hrs & _).
  cbn [trend_rows rows_of flat_map].
  run (apply load_dict_run, dict_at_Some, Hd).
  run (apply record_rows_run, Hrs).
  run (exact IH).
  unfold readings_at. rewrite Hd, Hrs. reflexivity.
Qed.

(** X14: the rows of the trends tab.  Building them never raises and
    changes nothing.  With fewer than two records there are none (the tab
    shows its message); otherwise they are the rows of the last 50 records
    of the history, or of all if there are fewer, oldest record first: one
    row per reading of the record, with the time of the record, the cell id
    the reading is stored under, and its voltage, current, temperature and
    health. *)
Theorem historical_trends_rows w :
  wf w = true ->
  let hist := historical_data (session_state w) in
  historical_trends w
  = Ok (if Nat.leb (length hist) 1 then None
        else Some (rows_of (heap w) (last_records 50 hist)), w) /\
  length (last_records 50 hist) = Nat.min 50 (length hist) /\
  last_records 50 hist `suffix_of` hist.
Proof.
  intros Hwf hist. split; [| split].
  - unfold historical_trends. run reflexivity. fold hist.
    destruct (Nat.leb_spec (length hist) 1) as [Hle | Hgt].
    + destruct (Nat.ltb_spec 1 (length hist)); [lia | reflexivity].
    + destruct (Nat.ltb_spec 1 (length hist)); [| lia].
      assert (HF : Forall (fun record => dict_ok (heap w) (Snapshot.data record) = true)
                          (last_records 50 hist)).
      { apply Forall_forall. intros record Hin.
        apply (wf_hist w record Hwf). unfold last_records in Hin.
        eapply subseteq_drop, Hin. }
      run (apply trend_rows_run, HF). reflexivity.
  - apply length_last_records.
  - apply suffix_drop.
Qed.

Lemma historical_trends_rows_witness :
  historical_trends recorded_world
  = Ok (Some (rows_of (heap recorded_world)
                (last_records 50 (historical_data (session_state recorded_world)))),
        recorded_world).
Proof.
  refine (proj1 (historical_trends_rows recorded_world _)).
  vm_compute; reflexivity.
Defined.

Example recorded_world_trends :
  match historical_trends recorded_world with
  | Ok (Some rows, _) =>
      map (fun row => (TrendRow.timestamp row, TrendRow.cell_id row)) rows
  | _ => []
  end
  = [(20%Z, "Cell_1_LFP"); (20%Z, "Cell_2_NMC");
     (30%Z, "Cell_1_LFP"); (30%Z, "Cell_2_NMC")].
Proof. vm_compute. reflexivity. Qed.

(** * Starting and stopping *)

Section StartAndStop.

Variable random : nat -> Q.

Lemma main_content_idle t w :
  wf w = true -> is_monitoring (session_state w) = false ->
  exists v, main_content random t w = Ok (v, w).
Proof.
  intros Hwf Hmon.
  destruct (main_content_ok random t w Hwf)
    as (v & w' & E & _ & _ & _ & _ & _ & Hempty & Hcells).
  exists v. destruct (has_cells w) eqn:Hc.
  - destruct (Hcells eq_refl) as (_ & Hsame & _). rewrite (Hsame Hmon) in E. exact E.
  - destruct (Hempty eq_refl) as [_ Hsame]. rewrite Hsame in E. exact E.
Qed.

(** X15: monitoring stays off until Start Monitoring is clicked.  From a
    session in which it is off, runs in which nothing or Stop Monitoring
    is clicked leave the whole session as it is: the heap, [cells_data],
    [historical_data], the flag and the random generator. *)
Theorem monitoring_stays_off inps w :
  wf w = true -> is_monitoring (session_state w) = false ->
  forallb quiet inps = true ->
  exists vs, script_runs random inps w = Ok (vs, w) /\ length vs = length inps.
Proof.
  intros Hwf Hmon. induction inps as [| inp inps IH]; intros Hq.
  - exists []. split; reflexivity.
  - cbn [forallb] in Hq. apply andb_prop in Hq as [Hq1 Hq2].
    destruct (IH Hq2) as (vs & E & Hlen).
    pose proof (sidebar_no_init random inp w) as Hs.
    assert (Hw : mkWorld (heap w)
                   (mkSession (cells_data (session_state w))
                      (historical_data (session_state w)) false) (rng w) = w).
    { destruct w as [h [cd hist mon] n]. cbn in Hmon |- *. rewrite Hmon. reflexivity. }
    assert (Hside : sidebar random inp w = Ok (false, w)).
    { unfold quiet in Hq1.
      destruct (clicked inp) as [[| |] |]; try discriminate;
        specialize (Hs ltac:(discriminate)); cbv zeta in Hs;
        rewrite ?Hmon, Bool.andb_false_r, Hw in Hs; exact Hs. }
    destruct (main_content_idle (now inp) w Hwf Hmon) as [v Ev].
    exists (v :: vs). split; [| cbn [length]; congruence].
    cbn [script_runs]. unfold script_run at 1.
    run (run (exact Hside); exact Ev). run (exact E). reflexivity.
Qed.

(** X16: the run in which Start Monitoring is clicked, with auto refresh
    off, already monitors.  With cells it appends a record timed at that
    run and shows the overview; without cells it shows the placeholder and
    appends nothing.  Either way the flag is on afterwards. *)
Theorem start_monitoring_records_at_once inp w :
  wf w = true ->
  clicked inp = Some StartMonitoring -> auto_refresh inp = false ->
  exists v w',
    script_run random inp w = Ok (v, w') /\
    is_monitoring (session_state w') = true /\
    (has_cells w = true ->
     (exists m, v = Overview m) /\
     exists c, historical_data (session_state w')
               = appended (historical_data (session_state w))
                          (Snapshot.mk (now inp) c)) /\
    (has_cells w = false ->
     v = Placeholder /\
     historical_data (session_state w') = historical_data (session_state w)).
Proof.
  intros Hwf Hclick Hauto.
  pose proof (sidebar_no_init random inp w) as Hs.
  rewrite Hclick, Hauto in Hs. specialize (Hs ltac:(discriminate)). cbv zeta in Hs.
  cbn [andb] in Hs.
  set (w1 := mkWorld _ _ _) in Hs.
  assert (Hwf1 : wf w1 = true) by exact Hwf.
  assert (Hc1 : has_cells w1 = has_cells w) by reflexivity.
  destruct (main_content_ok random (now inp) w1 Hwf1)
    as (v & w' & E & _ & _ & _ & Hmon' & _ & Hempty & Hcells).
  exists v, w'. split; [unfold script_run; run (exact Hs); exact E |].
  split; [exact Hmon' |]. rewrite <- Hc1. split.
  - intros Hc. destruct (Hcells Hc) as ((rs & _ & _ & Hv) & _ & Happ).
    split; [eauto |]. destruct (Happ eq_refl) as (c & Hh & _). eauto.
  - intros Hc. destruct (Hempty Hc) as [-> ->]. auto.
Qed.

End StartAndStop.

Lemma monitoring_stays_off_witness :
  exists vs,
    script_runs sample_random
      [sample_inputs None true 40; sample_inputs (Some StopMonitoring) false 50;
       sample_inputs None false 60] idle_world = Ok (vs, idle_world) /\
    length vs = 3.
Proof.
  apply (monitoring_stays_off sample_random
           [sample_inputs None true 40; sample_inputs (Some StopMonitoring) false 50;
            sample_inputs None false 60] idle_world);
    vm_compute; reflexivity.
Defined.

Lemma start_monitoring_records_at_once_witness :
  exists v w',
    script_run sample_random (sample_inputs (Some StartMonitoring) false 20) idle_world
    = Ok (v, w') /\
    is_monitoring (session_state w') = true.
Proof.
  destruct (start_monitoring_records_at_once sample_random
              (sample_inputs (Some StartMonitoring) false 20) idle_world)
    as (v & w' & E & Hmon & _); [vm_compute; reflexivity ..|].
  exists v, w'. auto.
Defined.

(** * The voltage chart *)

Section VoltageChart.

Variable random : nat -> Q.
Hypothesis random_range : forall n, (0 <= random n < 1)%Q.

Lemma generated_voltage r :
  generated random r ->
  exists config,
    dict_get (Cell.cell_type r) CELL_CONFIGS = Some config /\
    Cell.min_voltage r = Config.min_voltage config /\
    Cell.max_voltage r = Config.max_voltage config /\
    (Config.nominal_voltage config - 0.1 <= Cell.voltage r
       <= Config.nominal_voltage config + 0.1)%Q.
Proof.
  intros (config & n & Hc & E). exists config. split; [exact Hc |].
  rewrite E. cbn [Cell.min_voltage Cell.max_voltage Cell.voltage reading_of_draws].
  cbv zeta. repeat split; try reflexivity;
    apply draw_voltage; auto using random_range; eapply dict_get_values, Hc.
Qed.

(** The lines are those of the chemistry of the first cell; an LTO cell lies
    below the lower line of any other chemistry, and a cell of any other
    chemistry above the upper line of LTO. *)
Lemma limit_lines_of_first_cell w k1 r1 rest :
  wf w = true ->
  readings_at (heap w) (cells_data (session_state w)) = Some ((k1, r1) :: rest) ->
  Forall (fun kr => generated random kr.2) ((k1, r1) :: rest) ->
  voltage_limit_lines w = Ok ((Cell.min_voltage r1, Cell.max_voltage r1), w) /\
  (exists config,
      dict_get (Cell.cell_type r1) CELL_CONFIGS = Some config /\
      Cell.min_voltage r1 = Config.min_voltage config /\
      Cell.max_voltage r1 = Config.max_voltage config) /\
  (forall k r,
      (k, r) ∈ rest ->
      (Cell.cell_type r = "LTO" -> Cell.cell_type r1 <> "LTO" ->
       (Cell.voltage r < Cell.min_voltage r1)%Q) /\
      (Cell.cell_type r1 = "LTO" -> Cell.cell_type r <> "LTO" ->
       (Cell.max_voltage r1 < Cell.voltage r)%Q)).
Proof.
  intros Hwf Hrs Hall.
  apply readings_at_resolve in Hrs as (d & Hd & Hres).
  apply Forall_cons in Hall as [H1 Hrest]. cbn [snd] in H1.
  destruct (generated_voltage r1 H1) as (c1 & Hc1 & Hmin1 & Hmax1 & Hv1).
  split; [| split; [eauto |]].
  - unfold voltage_limit_lines. run reflexivity.
    run (apply load_dict_run, dict_at_Some, Hd).
    run (apply load_readings_run, Hres). reflexivity.
  - intros k r Hin. rewrite Forall_forall in Hrest. specialize (Hrest _ Hin).
    cbn [snd] in Hrest.
    destruct (generated_voltage r Hrest) as (c & Hc & _ & _ & Hv).
    rewrite Hmin1, Hmax1.
    destruct (config_cases _ _ Hc1) as [[E1 ->] | [[E1 ->] | [[E1 ->] | [E1 ->]]]];
      destruct (config_cases _ _ Hc) as [[E ->] | [[E ->] | [[E ->] | [E ->]]]];
      cbn [Config.nominal_voltage Config.min_voltage Config.max_voltage] in *;
      split; intros Ha Hb; try congruence; lra.
Qed.

(** X17: the dashed limit lines of the voltage chart are the minimum and
    maximum voltage of the chemistry of the first cell alone.  In a session
    that starts new, whatever is clicked, every LTO cell behind a first
    cell of another chemistry has its voltage below the lower line, and
    every cell of another chemistry behind a first LTO cell has its voltage
    above the upper line, although all these readings are Good. *)
Theorem limit_lines_fit_first_cell_only inps :
  forallb valid_inputs inps = true ->
  exists vs w',
    script_runs random inps initial_world = Ok (vs, w') /\
    forall k1 r1 rest,
      readings_at (heap w') (cells_data (session_state w')) = Some ((k1, r1) :: rest) ->
      voltage_limit_lines w' = Ok ((Cell.min_voltage r1, Cell.max_voltage r1), w') /\
      (exists config,
          dict_get (Cell.cell_type r1) CELL_CONFIGS = Some config /\
          Cell.min_voltage r1 = Config.min_voltage config /\
          Cell.max_voltage r1 = Config.max_voltage config) /\
      (forall k r,
          (k, r) ∈ rest ->
          Cell.status r = Good /\
          (Cell.cell_type r = "LTO" -> Cell.cell_type r1 <> "LTO" ->
           (Cell.voltage r < Cell.min_voltage r1)%Q) /\
          (Cell.cell_type r1 = "LTO" -> Cell.cell_type r <> "LTO" ->
           (Cell.max_voltage r1 < Cell.voltage r)%Q)).
Proof.
  intros Hin.
  destruct (script_runs_ok random inps initial_world eq_refl Hin)
    as (vs & w' & E & Hwf' & _).
  destruct (script_runs_generated random inps initial_world eq_refl) as
    (vs2 & w2 & E2 & (rs' & Hrs' & Hall') & _); [| exact Hin |].
  { exists []. split; [reflexivity | constructor]. }
  assert (w2 = w') as -> by congruence.
  exists vs, w'. split; [exact E |].
  intros k1 r1 rest Hrs.
  assert (rs' = (k1, r1) :: rest) as -> by congruence.
  destruct (limit_lines_of_first_cell w' k1 r1 rest Hwf' Hrs Hall')
    as (Hrun & Hcfg & Hout).
  split; [exact Hrun |]. split; [exact Hcfg |].
  intros k r Hkr. split; [| apply (Hout k r Hkr)].
  apply Forall_cons in Hall' as [_ Hrest]. rewrite Forall_forall in Hrest.
  apply (generated_good random random_range r), (Hrest _ Hkr).
Qed.

End VoltageChart.

Example mixed_bank_limit_lines :
  let w := world_after
             [mkInputs ["LTO"; "LiCoO2"] (Some InitializeCells) false 10] initial_world in
  voltage_limit_lines w = Ok ((1.5, 2.8)%Q, w) /\
  option_map (map (fun kr => (Cell.voltage kr.2, Cell.status kr.2)))
             (readings_at (heap w) (cells_data (session_state w)))
  = Some [(2.350%Q, Good); (3.650%Q, Good)].
Proof. vm_compute. split; reflexivity. Qed.

Lemma limit_lines_fit_first_cell_only_witness :
  exists vs w',
    script_runs sample_random
      [mkInputs ["LTO"; "LiCoO2"] (Some InitializeCells) false 10] initial_world
    = Ok (vs, w').
Proof.
  destruct (limit_lines_fit_first_cell_only sample_random sample_random_range
              [mkInputs ["LTO"; "LiCoO2"] (Some InitializeCells) false 10])
    as (vs & w' & E & _); [vm_compute; reflexivity |].
  exists vs, w'. exact E.
Defined.
